(** * Form-X: the string-formatting core of [main.py]

    A shallow embedding of the processing pipeline of [StringFormatterApp]
    (separator detection, tokenisation, content counting, the formatters
    and [process_string]) together with the properties of its
    specification.

    Python [str] values are sequences of Unicode code points; the tkinter
    variables and widgets the methods read and write are the fields of the
    record [App]; message boxes are logged by a small writer monad. *)

From Stdlib Require Import List NArith ZArith Arith Bool Lia.
From Stdlib Require Import Strings.String Strings.Ascii Numbers.DecimalString.
From Stdlib Require Import Numbers.DecimalNat Lists.Finite.
Import ListNotations.

Local Open Scope list_scope.

(* ================================================================== *)
(** * Python strings *)
(* ================================================================== *)

Module Py.

(** A character is its code point; a [str] is the list of its characters. *)
Definition char := N.
Definition pystr := list char.

(** String literals of the source, written as Rocq strings. *)
Definition py (s : string) : pystr := map N_of_ascii (list_ascii_of_string s).

Definition SPACE : char := 32%N.
Definition NEWLINE : char := 10%N.
Definition COMMA : char := 44%N.
Definition SLASH : char := 47%N.
Definition LOWER_N : char := 110%N.
Definition DQUOTE : char := 34%N.

(** [a == b] on strings. *)
Fixpoint pystr_eqb (a b : pystr) : bool :=
  match a, b with
  | [], [] => true
  | x :: a', y :: b' => N.eqb x y && pystr_eqb a' b'
  | _, _ => false
  end.

(** Comparison of a string with a literal of the source. *)
Definition is_lit (s : pystr) (lit : string) : bool := pystr_eqb s (py lit).

(** Truth value of a sequence: [not l] holds of the empty one only. *)
Definition py_not {A : Type} (l : list A) : bool :=
  match l with
  | [] => true
  | _ :: _ => false
  end.

Definition in_range (lo hi c : N) : bool := (N.leb lo c && N.leb c hi)%bool.

(** Unicode whitespace, the class shared by [str.split()], [str.strip()]
    and the pattern [\s] of [re] on [str]: U+0009..U+000D, U+001C..U+0020,
    U+0085, U+00A0, U+1680, U+2000..U+200A, U+2028, U+2029, U+202F, U+205F
    and U+3000. *)
Definition isspace (c : char) : bool :=
  (in_range 9 13 c || in_range 28 32 c || N.eqb c 133 || N.eqb c 160
   || N.eqb c 5760 || in_range 8192 8202 c || N.eqb c 8232 || N.eqb c 8233
   || N.eqb c 8239 || N.eqb c 8287 || N.eqb c 12288)%bool.

(** The class [a-zA-Z0-9]. *)
Definition is_ascii_alnum (c : char) : bool :=
  (in_range 97 122 c || in_range 65 90 c || in_range 48 57 c)%bool.

(** [s.lstrip()], [s.rstrip()] and [s.strip()]. *)
Fixpoint lstrip (s : pystr) : pystr :=
  match s with
  | [] => []
  | c :: r => if isspace c then lstrip r else s
  end.

Fixpoint rstrip (s : pystr) : pystr :=
  match s with
  | [] => []
  | c :: r =>
      let r' := rstrip r in
      if (isspace c && py_not r')%bool then [] else c :: r'
  end.

Definition strip (s : pystr) : pystr := rstrip (lstrip s).

(** [s.split()]: the maximal runs of non-whitespace characters, in order.
    [words_from s] reads [s] from the right and returns the run that
    starts at the head of [s] (empty when [s] starts with whitespace) and
    the runs that follow it. *)
Definition push_word (w : pystr) (ws : list pystr) : list pystr :=
  match w with
  | [] => ws
  | _ :: _ => w :: ws
  end.

Fixpoint words_from (s : pystr) : pystr * list pystr :=
  match s with
  | [] => ([], [])
  | c :: r =>
      let (w, ws) := words_from r in
      if isspace c then ([], push_word w ws) else (c :: w, ws)
  end.

Definition split (s : pystr) : list pystr :=
  let (w, ws) := words_from s in push_word w ws.

(** [s.split(sep)] for a separator of one character: the pieces between
    the occurrences of [sep], empty pieces included; never the empty
    list. *)
Fixpoint pieces_from (sep : char) (s : pystr) : pystr * list pystr :=
  match s with
  | [] => ([], [])
  | c :: r =>
      let (p, ps) := pieces_from sep r in
      if N.eqb c sep then ([], p :: ps) else (c :: p, ps)
  end.

Definition split_on (sep : char) (s : pystr) : list pystr :=
  let (p, ps) := pieces_from sep s in p :: ps.

(** [sep.join(l)]. *)
Fixpoint join (sep : pystr) (l : list pystr) : pystr :=
  match l with
  | [] => []
  | [x] => x
  | x :: r => x ++ sep ++ join sep r
  end.

(** [s.count(c)] for a pattern of one character. *)
Definition count (c : char) (s : pystr) : nat :=
  List.length (filter (N.eqb c) s).

(** [str(n)] for a non-negative integer. *)
Definition str_of_nat (n : nat) : pystr :=
  py (NilZero.string_of_uint (Nat.to_uint n)).

(** [enumerate(l)], counting from [start]. *)
Fixpoint enumerate_from {A : Type} (start : nat) (l : list A) : list (nat * A) :=
  match l with
  | [] => []
  | x :: r => (start, x) :: enumerate_from (S start) r
  end.

Definition enumerate {A : Type} (l : list A) : list (nat * A) :=
  enumerate_from 0 l.

(** [re.sub(r'/n', ' ', s)]: every occurrence of the two characters
    [/n], found from the left without overlap, becomes one space. *)
Fixpoint sub_slash_n (s : pystr) : pystr :=
  match s with
  | [] => []
  | c :: r =>
      match r with
      | d :: r' =>
          if (N.eqb c SLASH && N.eqb d LOWER_N)%bool
          then SPACE :: sub_slash_n r'
          else c :: sub_slash_n r
      | [] => [c]
      end
  end.

(** [re.sub(r'\s+', ' ', s)]: every maximal run of whitespace becomes one
    space.  [in_run] tells that the previous character was whitespace, so
    that the run it belongs to has been replaced already. *)
Fixpoint collapse_from (in_run : bool) (s : pystr) : pystr :=
  match s with
  | [] => []
  | c :: r =>
      if isspace c
      then (if in_run then collapse_from true r
            else SPACE :: collapse_from true r)
      else c :: collapse_from false r
  end.

Definition sub_whitespace (s : pystr) : pystr := collapse_from false s.

(** [re.sub(r'[^a-zA-Z0-9\s]', '', s)]. *)
Definition sub_non_alnum (s : pystr) : pystr :=
  filter (fun c => (is_ascii_alnum c || isspace c)%bool) s.

End Py.

Import Py.

(* ================================================================== *)
(** * The application *)
(* ================================================================== *)

(** ** Message boxes

    [messagebox.showwarning] and [messagebox.showerror] are the only
    effects of the pipeline besides the write to the output area.  A
    computation returns its value together with the boxes it opened, in
    order. *)

Inductive Dialog : Type :=
| ShowWarning (title message : pystr)
| ShowError (title message : pystr).

Definition UI (A : Type) : Type := (A * list Dialog)%type.

Definition ret {A : Type} (a : A) : UI A := (a, []).

Definition bind {A B : Type} (m : UI A) (f : A -> UI B) : UI B :=
  let (a, shown) := m in
  let (b, shown') := f a in
  (b, shown ++ shown').

Notation "x <- m ;; k" := (bind m (fun x => k))
  (at level 61, m at next level, right associativity).
Notation "m ;;; k" := (bind m (fun _ => k))
  (at level 61, right associativity).

Definition showwarning (title message : string) : UI unit :=
  (tt, [ShowWarning (py title) (py message)]).

(** The boxes through which the three refusals reach the user. *)
Definition EmptyInput : Dialog :=
  ShowWarning (py "Warning") (py "Please enter a string to format").
Definition NoItemsFound : Dialog :=
  ShowWarning (py "Warning") (py "No items found in the input string").
Definition MissingPrefix : Dialog :=
  ShowWarning (py "Warning")
    (py "Please enter a prefix for user-defined keys or select a different option").

(** ** The state the methods read and write

    [input_text] is what [self.input_text.get(1.0, tk.END)] returns,
    [user_prefix] what [self.user_prefix.get()] returns, [output_text] the
    content of the output area; the three option variables hold the value
    of the selected radio button. *)
Record App : Type := mkApp {
  input_text : pystr;
  separator_var : pystr;
  format_type : pystr;
  dict_key_type : pystr;
  user_prefix : pystr;
  output_text : pystr
}.

(** [self.output_text.delete(1.0, tk.END)] followed by
    [self.output_text.insert(1.0, output)]. *)
Definition set_output_text (self : App) (output : pystr) : App :=
  mkApp (input_text self) (separator_var self) (format_type self)
        (dict_key_type self) (user_prefix self) output.

(** ** String processing utilities *)

(** The separators are strings of one character; the model returns that
    character.  [space_count] is computed by the source and never read. *)
Definition auto_detect_separator (input_string : pystr) : char :=
  if py_not input_string then SPACE
  else
    let comma_count := count COMMA input_string in
    let newline_count := count NEWLINE input_string in
    if ((0 <? comma_count) && (newline_count <=? comma_count))%bool then COMMA
    else if 0 <? newline_count then NEWLINE
    else SPACE.

(** The first three statements of [clean_and_split_string]. *)
Definition cleaned (input_string : pystr) : pystr :=
  strip (sub_whitespace (sub_slash_n input_string)).

(** [[item.strip() for item in pieces if item.strip()]]. *)
Definition stripped_items (pieces : list pystr) : list pystr :=
  map strip (filter (fun item => negb (py_not (strip item))) pieces).

Definition clean_and_split_string (self : App) (input_string : pystr) : list pystr :=
  let cleaned := cleaned input_string in
  let sep_type := separator_var self in
  if is_lit sep_type "auto" then
    let separator := auto_detect_separator cleaned in
    stripped_items (split_on separator cleaned)
  else if (is_lit sep_type "space" || is_lit sep_type "comma"
           || is_lit sep_type "newline")%bool then
    stripped_items (split cleaned)
  else
    stripped_items (split cleaned).

Definition count_actual_content (items : list pystr) : nat :=
  fold_left
    (fun content_count item =>
       let clean_item := sub_non_alnum item in
       let words := filter (fun word => negb (py_not (strip word))) (split clean_item) in
       content_count + List.length words)
    items 0.

(** ** Formatting methods *)

(** [f'"{item}"'] *)
Definition quoted (item : pystr) : pystr := [DQUOTE] ++ item ++ [DQUOTE].

Definition format_items_as_string (items : list pystr) : pystr :=
  join (py ", ") (map quoted items).

Definition format_as_list (items : list pystr) : pystr :=
  py "[" ++ format_items_as_string items ++ py "]".

Definition format_as_tuple (items : list pystr) : pystr :=
  py "(" ++ format_items_as_string items ++ py ")".

(** [f'"{key}": "{value}"'], the text of one dictionary entry. *)
Definition dict_entry (kv : pystr * pystr) : pystr :=
  quoted (fst kv) ++ py ": " ++ quoted (snd kv).

(** The key and the value of the entry that the [first_word] branch
    appends for [item]. *)
Definition first_word_pair (item : pystr) : pystr * pystr :=
  let words := split item in
  match words with
  | key :: _ =>
      let value := if 1 <? List.length words then join (py " ") (skipn 1 words)
                   else item in
      (key, value)
  | [] => (item, item)
  end.

(** The key and the value of every entry of [dict_entries], or [None]
    where [format_as_dict] returns [None] before building the entries.
    The source writes each entry as text at once; the model keeps the pair
    and [format_as_dict] renders it with [dict_entry]. *)
Definition dict_pairs (self : App) (items : list pystr)
  : UI (option (list (pystr * pystr))) :=
  let key_type := dict_key_type self in
  if is_lit key_type "none" then ret None
  else if is_lit key_type "index" then
    ret (Some (map (fun '(i, item) => (str_of_nat i, item)) (enumerate items)))
  else if is_lit key_type "auto" then
    ret (Some (map (fun '(i, item) => (py "item_" ++ str_of_nat (i + 1), item))
                   (enumerate items)))
  else if is_lit key_type "user_defined" then
    let user_prefix := strip (user_prefix self) in
    if py_not user_prefix then
      showwarning "Warning"
        "Please enter a prefix for user-defined keys or select a different option" ;;;
      ret None
    else
      ret (Some (map (fun '(i, item) =>
                        (user_prefix ++ py "_" ++ str_of_nat (i + 1), item))
                     (enumerate items)))
  else if is_lit key_type "first_word" then
    ret (Some (map first_word_pair items))
  else ret None.

Definition format_as_dict (self : App) (items : list pystr) : UI (option pystr) :=
  pairs <- dict_pairs self items ;;
  match pairs with
  | None => ret None
  | Some pairs =>
      let dict_content := join (py ", ") (map dict_entry pairs) in
      ret (Some (py "{" ++ dict_content ++ py "}"))
  end.

Definition format_with_separator_style (self : App) (items : list pystr)
    (format_type : pystr) : option pystr :=
  let sep_type := separator_var self in
  if (is_lit sep_type "comma" && is_lit format_type "none")%bool then
    Some (join (py ", ") items)
  else if (is_lit sep_type "newline" && is_lit format_type "none")%bool then
    Some (join [NEWLINE] items)
  else if (is_lit sep_type "space" && is_lit format_type "none")%bool then
    Some (join (py " ") items)
  else None.

(** ** Main processing method *)

(** [f"Item count: {content_count}\n\n"] *)
Definition item_count_header (content_count : nat) : pystr :=
  py "Item count: " ++ str_of_nat content_count ++ [NEWLINE; NEWLINE].

(** No operation of the model raises, so the [except] clause of the source
    (an error box) has no counterpart here. *)
Definition process_string (self : App) : UI App :=
  let input_string := strip (input_text self) in
  if py_not input_string then
    showwarning "Warning" "Please enter a string to format" ;;;
    ret self
  else
    let format_type := format_type self in
    let items := clean_and_split_string self input_string in
    if py_not items then
      showwarning "Warning" "No items found in the input string" ;;;
      ret self
    else
      let content_count := count_actual_content items in
      let output := item_count_header content_count in
      let special_format := format_with_separator_style self items format_type in
      output <-
        match special_format with
        | Some special_format => ret (output ++ special_format)
        | None =>
            if is_lit format_type "list" then
              ret (output ++ format_as_list items)
            else if is_lit format_type "dict" then
              dict_result <- format_as_dict self items ;;
              match dict_result with
              | Some dict_result => ret (output ++ dict_result)
              | None =>
                  let separator_format :=
                    format_with_separator_style self items (py "none") in
                  match separator_format with
                  | Some separator_format => ret (output ++ separator_format)
                  | None => ret output
                  end
              end
            else if is_lit format_type "tuple" then
              ret (output ++ format_as_tuple items)
            else if is_lit format_type "none" then
              ret output
            else ret output
        end ;;
      ret (set_output_text self output).

(** ** Vocabulary of the statements *)

(** The option values of the radio buttons. *)
Definition manual_separator (sep_type : pystr) : Prop :=
  sep_type = py "space" \/ sep_type = py "comma" \/ sep_type = py "newline".

(** A string without whitespace, and one without the marker [/n]. *)
Definition no_whitespace (s : pystr) : Prop := forallb (fun c => negb (isspace c)) s = true.

Fixpoint has_marker (s : pystr) : bool :=
  match s with
  | [] => false
  | c :: r =>
      match r with
      | d :: _ => (N.eqb c SLASH && N.eqb d LOWER_N) || has_marker r
      | [] => false
      end
  end.

(** A word: not empty and free of whitespace. *)
Definition is_word (w : pystr) : Prop := w <> [] /\ no_whitespace w.

(** A string whose only whitespace is the space character. *)
Definition only_spaces (s : pystr) : Prop :=
  Forall (fun c => isspace c = true -> c = SPACE) s.

(** A decimal digit. *)
Definition is_digit (c : char) : Prop := in_range 48 57 c = true.

(** The key strategies that build entries: [index], [auto], [first_word],
    and [user_defined] when the trimmed prefix is not empty. *)
Definition key_strategy_applies (self : App) : Prop :=
  dict_key_type self = py "index"
  \/ dict_key_type self = py "auto"
  \/ dict_key_type self = py "first_word"
  \/ (dict_key_type self = py "user_defined" /\ strip (user_prefix self) <> []).

(** An item as the round trip needs it: not empty, no whitespace, no
    marker. *)
Definition plain_item (item : pystr) : Prop :=
  item <> [] /\ no_whitespace item /\ has_marker item = false.

(** [items] with a comma appended to each but the last. *)
Fixpoint comma_suffixed (items : list pystr) : list pystr :=
  match items with
  | [] => []
  | [x] => [x]
  | x :: r => (x ++ [COMMA]) :: comma_suffixed r
  end.

(** An application state with the given input and options and an output
    area that shows [shown]. *)
Definition app_with (input sep fmt key prefix : string) (shown : pystr) : App :=
  mkApp (py input) (py sep) (py fmt) (py key) (py prefix) shown.

(* ================================================================== *)
(** * The rest of the window *)
(* ================================================================== *)

(** ** More string operations *)

(** [s.startswith(prefix)]. *)
Fixpoint startswith (s prefix : pystr) {struct prefix} : bool :=
  match prefix with
  | [] => true
  | p :: prefix' =>
      match s with
      | [] => false
      | c :: s' => N.eqb c p && startswith s' prefix'
      end
  end.

(** The index of the first occurrence of [sub] in [s]. *)
Fixpoint find_in (sub s : pystr) : option nat :=
  if startswith s sub then Some 0
  else match s with
       | [] => None
       | _ :: r => option_map S (find_in sub r)
       end.

(** [s.find(sub, start)] for [0 <= start]: the lowest index at or after
    [start] where [sub] occurs, and [-1] when there is none or when
    [start] is past the end of [s]. *)
Definition find (s sub : pystr) (start : Z) : Z :=
  if (Z.of_nat (List.length s) <? start)%Z then (-1)%Z
  else match find_in sub (skipn (Z.to_nat start) s) with
       | Some i => (start + Z.of_nat i)%Z
       | None => (-1)%Z
       end.

(** [s[start:stop]] for [0 <= start]. *)
Definition slice (s : pystr) (start stop : Z) : pystr :=
  firstn (Z.to_nat (stop - start)) (skipn (Z.to_nat start) s).

(** The three double quotes that delimit the example. *)
Definition TRIPLE_QUOTE : pystr := [DQUOTE; DQUOTE; DQUOTE].

(** ** State and effects

    Besides the fields of [App] the other methods use the colour of the
    status indicator and the clipboard, and [messagebox.showinfo]. *)

Inductive Notice : Type :=
| Shown (box : Dialog)
| ShowInfo (title message : pystr).

Record Window : Type := mkWindow {
  app : App;
  status_indicator : pystr;
  clipboard : pystr
}.

Definition with_app (w : Window) (a : App) : Window :=
  mkWindow a (status_indicator w) (clipboard w).

(** [self.status_indicator.config(fg=colour)]. *)
Definition set_status_indicator (w : Window) (colour : string) : Window :=
  mkWindow (app w) (py colour) (clipboard w).

(** [self.root.clipboard_clear()] followed by
    [self.root.clipboard_append(text)]. *)
Definition set_clipboard (w : Window) (text : pystr) : Window :=
  mkWindow (app w) (status_indicator w) text.

(** [self.input_text.delete(1.0, tk.END)] followed by
    [self.input_text.insert(1.0, text)]: a text widget ends its content
    with a newline, which [get(1.0, tk.END)] returns too. *)
Definition set_input_text (self : App) (text : pystr) : App :=
  mkApp (text ++ [NEWLINE]) (separator_var self) (format_type self)
        (dict_key_type self) (user_prefix self) (output_text self).

(** [self.output_text.get(1.0, tk.END)]. *)
Definition get_output_text (self : App) : pystr := output_text self ++ [NEWLINE].

(** ** File and input operations *)

(** What opening and reading [example.py] gives. *)
Inductive FileRead : Type :=
| FileNotFound
| ReadFailure (detail : pystr)
| FileContent (content : pystr).

Definition load_example (file : FileRead) (w : Window) : Window * list Notice :=
  match file with
  | FileContent content =>
      let start := (find content TRIPLE_QUOTE 0 + 3)%Z in
      let stop := find content TRIPLE_QUOTE start in
      if ((2 <? start)%Z && (start <? stop)%Z)%bool then
        let example_string := slice content start stop in
        (set_status_indicator (with_app w (set_input_text (app w) example_string)) "red",
         [])
      else
        (w, [Shown (ShowError (py "Error")
                      (py "Could not find example string in example.py"))])
  | FileNotFound =>
      (w, [Shown (ShowError (py "Error")
                    (py "example.py file not found in current directory"))])
  | ReadFailure detail =>
      (w, [Shown (ShowError (py "Error") (py "Error loading file: " ++ detail))])
  end.

Definition clear_input (w : Window) : Window :=
  set_status_indicator (with_app w (set_input_text (app w) [])) "red".

Definition clear_output (w : Window) : Window :=
  with_app w (set_output_text (app w) []).

(** The text that [copy_to_clipboard] puts on the clipboard for the
    trimmed [output]. *)
Definition output_to_copy (output : pystr) : pystr :=
  let lines := split_on NEWLINE output in
  if match lines with
     | [] => false
     | first :: _ => startswith first (py "Item count:")
     end
  then
    let filtered_lines :=
      filter (fun line => negb (py_not (strip line))) (skipn 2 lines) in
    join [NEWLINE] filtered_lines
  else output.

Definition copy_to_clipboard (w : Window) : Window * list Notice :=
  let output := strip (get_output_text (app w)) in
  if py_not output then
    (w, [Shown (ShowWarning (py "Warning") (py "No output to copy"))])
  else
    (set_clipboard w (output_to_copy output),
     [ShowInfo (py "Success") (py "Output copied to clipboard!")]).

(** The characters that [analyze_string] looks for, by code point: the
    comma, the full stop, the slash, the semicolon, the single and the
    double quote, and the square, curly and round brackets. *)
Definition problematic_chars : list char :=
  [44; 46; 47; 59; 39; 34; 91; 93; 123; 125; 40; 41]%N.

Definition found_chars (input_string : pystr) : list char :=
  filter (fun char => existsb (N.eqb char) input_string) problematic_chars.

Definition analysis_message (found_chars : list char) : pystr :=
  let char_list := join (py ", ") (map (fun char => [39; char; 39]%N) found_chars) in
  py "Warning: Found potentially problematic characters in your input:"
  ++ [NEWLINE] ++ char_list ++ [NEWLINE; NEWLINE]
  ++ py "These characters might interfere with the app's functions. "
  ++ py "Consider removing them or using the custom separator option.".

Definition analyze_string (w : Window) : Window * list Notice :=
  let input_string := strip (input_text (app w)) in
  if py_not input_string then
    (w, [Shown (ShowWarning (py "Warning") (py "Please enter a string to analyze"))])
  else
    let found_chars := found_chars input_string in
    let notice :=
      if negb (py_not found_chars) then
        Shown (ShowWarning (py "String Analysis") (analysis_message found_chars))
      else
        ShowInfo (py "String Analysis")
          (py "No problematic characters found. Your string should work well with all formatting options!") in
    (set_status_indicator w "green", [notice]).

(** [get_separator]; the argument is [None] when the caller leaves it
    out, and [auto_detect_separator] answers the space for it. *)
Definition get_separator (self : App) (input_string : option pystr) : char :=
  let sep_type := separator_var self in
  if is_lit sep_type "auto" then
    match input_string with
    | Some input_string => auto_detect_separator input_string
    | None => SPACE
    end
  else if is_lit sep_type "space" then SPACE
  else if is_lit sep_type "comma" then COMMA
  else if is_lit sep_type "newline" then NEWLINE
  else SPACE.

(** The "Format String" button on the window. *)
Definition press_format (w : Window) : Window * list Notice :=
  let (a, shown) := process_string (app w) in
  (with_app w a, map Shown shown).

(** ** Vocabulary of the further statements *)

(** A string in which whitespace is single spaces only; [after_space]
    tells that the character before is a space. *)
Fixpoint well_spaced (after_space : bool) (s : pystr) : bool :=
  match s with
  | [] => true
  | c :: r =>
      if isspace c
      then negb after_space && N.eqb c SPACE && well_spaced true r
      else well_spaced false r
  end.

(** A value of a comma-separated line: not empty, with no whitespace, no
    comma and no marker. *)
Definition csv_value (v : pystr) : Prop :=
  plain_item v /\ Forall (fun c => c <> COMMA) v.

(** An item made of letters and digits only. *)
Definition alnum_word (w : pystr) : Prop :=
  w <> [] /\ forallb is_ascii_alnum w = true.

(** ** Tactics *)

(** Decides the comparisons of an option variable, once its value is
    known, with the literals of the source. *)
Ltac decide_literals :=
  repeat match goal with
  | |- context [is_lit (py ?a) ?b] =>
      let v := eval vm_compute in (is_lit (py a) b) in
      change (is_lit (py a) b) with v
  end;
  cbn [andb orb negb].

Ltac option_is H := rewrite ?H in *; decide_literals.

(* ================================================================== *)
(** * Facts about the string operations *)
(* ================================================================== *)

Section StringFacts.

Lemma pystr_eqb_eq (a b : pystr) : pystr_eqb a b = true <-> a = b.
Proof.
  revert b; induction a as [|x a IH]; intros [|y b]; simpl; split;
    try congruence; try reflexivity.
  - intros H. apply andb_true_iff in H as [Hx Hab].
    apply N.eqb_eq in Hx. apply IH in Hab. congruence.
  - intros H. injection H as -> ->. rewrite N.eqb_refl. simpl. now apply IH.
Qed.

Lemma py_not_true {A : Type} (l : list A) : py_not l = true <-> l = [].
Proof. destruct l; simpl; split; congruence. Qed.

Lemma py_not_false {A : Type} (l : list A) : py_not l = false <-> l <> [].
Proof. destruct l; simpl; split; congruence. Qed.

Lemma no_whitespace_cons (c : char) (s : pystr) :
  no_whitespace (c :: s) <-> isspace c = false /\ no_whitespace s.
Proof.
  unfold no_whitespace; simpl. rewrite andb_true_iff, negb_true_iff. tauto.
Qed.

Lemma no_whitespace_app (a b : pystr) :
  no_whitespace (a ++ b) <-> no_whitespace a /\ no_whitespace b.
Proof.
  unfold no_whitespace. rewrite forallb_app, andb_true_iff. tauto.
Qed.

(** *** [split] *)

Lemma split_nil : split [] = [].
Proof. reflexivity. Qed.

Lemma split_cons_space (c : char) (r : pystr) :
  isspace c = true -> split (c :: r) = split r.
Proof.
  intros Hc. unfold split; simpl. destruct (words_from r) as [w ws].
  rewrite Hc. reflexivity.
Qed.

Lemma words_from_cons_other (c : char) (r : pystr) :
  isspace c = false ->
  words_from (c :: r) = (c :: fst (words_from r), snd (words_from r)).
Proof.
  intros Hc. simpl. destruct (words_from r) as [w ws]. rewrite Hc. reflexivity.
Qed.

Lemma words_from_cons_space (c : char) (r : pystr) :
  isspace c = true -> words_from (c :: r) = ([], split r).
Proof.
  intros Hc. unfold split. simpl. destruct (words_from r) as [w ws].
  rewrite Hc. reflexivity.
Qed.

Lemma words_from_word_app (w r : pystr) :
  no_whitespace w ->
  words_from (w ++ r) = (w ++ fst (words_from r), snd (words_from r)).
Proof.
  induction w as [|c w IH]; intros Hw.
  - simpl. now destruct (words_from r).
  - apply no_whitespace_cons in Hw as [Hc Hw].
    rewrite <- app_comm_cons, words_from_cons_other by exact Hc.
    rewrite IH by exact Hw. reflexivity.
Qed.

(** A word followed by whitespace is the first piece of the split. *)
Lemma split_word_then_space (w : pystr) (x : char) (r : pystr) :
  w <> [] -> no_whitespace w -> isspace x = true ->
  split (w ++ x :: r) = w :: split r.
Proof.
  intros Hne Hw Hx. unfold split at 1.
  rewrite words_from_word_app by exact Hw.
  rewrite words_from_cons_space by exact Hx. simpl.
  rewrite app_nil_r. destruct w; [contradiction | reflexivity].
Qed.

Lemma split_word (w : pystr) : w <> [] -> no_whitespace w -> split w = [w].
Proof.
  intros Hne Hw. unfold split.
  rewrite <- (app_nil_r w) at 1. rewrite words_from_word_app by exact Hw.
  simpl. rewrite app_nil_r. destruct w; [contradiction | reflexivity].
Qed.

(** Every piece of a split is a word. *)
Lemma push_word_words (w : pystr) (ws : list pystr) :
  no_whitespace w -> Forall is_word ws -> Forall is_word (push_word w ws).
Proof.
  intros Hw Hws. destruct w; simpl; [exact Hws|].
  constructor; [split; [discriminate | exact Hw] | exact Hws].
Qed.

Lemma words_from_words (s : pystr) :
  no_whitespace (fst (words_from s)) /\ Forall is_word (snd (words_from s)).
Proof.
  induction s as [|c r [IHw IHws]]; simpl.
  - split; [reflexivity | constructor].
  - destruct (words_from r) as [w ws]; simpl in *.
    destruct (isspace c) eqn:Hc; simpl.
    + split; [reflexivity | now apply push_word_words].
    + split; [apply no_whitespace_cons; now split | exact IHws].
Qed.

Lemma split_words (s : pystr) : Forall is_word (split s).
Proof.
  unfold split. pose proof (words_from_words s) as [Hw Hws].
  destruct (words_from s) as [w ws]. now apply push_word_words.
Qed.

(** *** [strip] *)

Lemma split_lstrip (s : pystr) : split (lstrip s) = split s.
Proof.
  induction s as [|c r IH]; simpl; [reflexivity|].
  destruct (isspace c) eqn:Hc; [|reflexivity].
  rewrite split_cons_space by exact Hc. exact IH.
Qed.

Lemma words_from_rstrip (s : pystr) : words_from (rstrip s) = words_from s.
Proof.
  induction s as [|c r IH]; [reflexivity|].
  cbn [rstrip]. destruct (isspace c && py_not (rstrip r))%bool eqn:E.
  - apply andb_true_iff in E as [Hc Hr]. apply py_not_true in Hr.
    rewrite Hr in IH. simpl in IH. simpl. rewrite <- IH, Hc. reflexivity.
  - simpl. rewrite IH. reflexivity.
Qed.

Lemma split_rstrip (s : pystr) : split (rstrip s) = split s.
Proof. unfold split. now rewrite words_from_rstrip. Qed.

Lemma split_strip (s : pystr) : split (strip s) = split s.
Proof. unfold strip. now rewrite split_rstrip, split_lstrip. Qed.

Lemma rstrip_no_whitespace (w : pystr) : no_whitespace w -> rstrip w = w.
Proof.
  induction w as [|c w IH]; intros Hw; [reflexivity|].
  apply no_whitespace_cons in Hw as [Hc Hw].
  cbn [rstrip]. rewrite Hc, IH by exact Hw. reflexivity.
Qed.

Lemma lstrip_no_whitespace (w : pystr) : no_whitespace w -> lstrip w = w.
Proof.
  destruct w as [|c w]; intros Hw; [reflexivity|].
  apply no_whitespace_cons in Hw as [Hc Hw]. simpl. now rewrite Hc.
Qed.

Lemma strip_no_whitespace (w : pystr) : no_whitespace w -> strip w = w.
Proof.
  intros Hw. unfold strip. rewrite lstrip_no_whitespace by exact Hw.
  now apply rstrip_no_whitespace.
Qed.

(** A string that splits into no word strips to nothing, and one that
    splits into a single word strips to that word. *)
Lemma rstrip_one_run (s w : pystr) : words_from s = (w, []) -> rstrip s = w.
Proof.
  revert w; induction s as [|c r IH]; intros w H.
  - simpl in H. now injection H as <-.
  - simpl in H. destruct (words_from r) as [w' ws'] eqn:E.
    cbn [rstrip]. destruct (isspace c) eqn:Hc.
    + injection H as <- Hp. destruct w'; simpl in Hp; [|discriminate].
      subst ws'. rewrite (IH [] eq_refl). reflexivity.
    + injection H as <- ->. rewrite (IH w' eq_refl). reflexivity.
Qed.

Lemma strip_split_nil (s : pystr) : split s = [] -> strip s = [].
Proof.
  unfold strip. induction s as [|c r IH]; intros H; [reflexivity|].
  simpl. destruct (isspace c) eqn:Hc.
  - apply IH. now rewrite split_cons_space in H.
  - unfold split in H. rewrite words_from_cons_other in H by exact Hc.
    discriminate.
Qed.

Lemma strip_split_one (s w : pystr) : split s = [w] -> strip s = w.
Proof.
  unfold strip. induction s as [|c r IH]; intros H; [discriminate|].
  simpl. destruct (isspace c) eqn:Hc.
  - apply IH. now rewrite split_cons_space in H.
  - unfold split in H. rewrite words_from_cons_other in H by exact Hc.
    simpl in H. injection H as <- Hws.
    apply rstrip_one_run. rewrite words_from_cons_other by exact Hc.
    now rewrite Hws.
Qed.

Lemma split_nil_of_strip_nil (s : pystr) : strip s = [] -> split s = [].
Proof. intros H. rewrite <- split_strip, H. reflexivity. Qed.

End StringFacts.

(* ================================================================== *)
(** * Facts about normalisation and tokenisation *)
(* ================================================================== *)

Section Normalisation.

(** Collapsing the whitespace runs does not change the words. *)
Lemma collapse_from_words (s : pystr) :
  words_from (collapse_from false s) = words_from s
  /\ split (collapse_from true s) = split s.
Proof.
  induction s as [|c r [IHf IHt]]; [split; reflexivity|].
  cbn [collapse_from]. destruct (isspace c) eqn:Hc.
  - split.
    + rewrite !words_from_cons_space by (exact Hc || reflexivity).
      now rewrite IHt.
    + now rewrite split_cons_space by exact Hc.
  - split.
    + rewrite !words_from_cons_other by exact Hc. now rewrite IHf.
    + unfold split. rewrite !words_from_cons_other by exact Hc. now rewrite IHf.
Qed.

Lemma split_sub_whitespace (s : pystr) : split (sub_whitespace s) = split s.
Proof.
  unfold sub_whitespace, split. now rewrite (proj1 (collapse_from_words s)).
Qed.

Lemma split_cleaned (s : pystr) : split (cleaned s) = split (sub_slash_n s).
Proof. unfold cleaned. now rewrite split_strip, split_sub_whitespace. Qed.

Lemma collapse_from_only_spaces (b : bool) (s : pystr) :
  only_spaces (collapse_from b s).
Proof.
  revert b; induction s as [|c r IH]; intros b; [constructor|].
  cbn [collapse_from]. destruct (isspace c) eqn:Hc.
  - destruct b; [apply IH|]. constructor; [reflexivity | apply IH].
  - constructor; [congruence | apply IH].
Qed.

Lemma lstrip_Forall (P : char -> Prop) (s : pystr) :
  Forall P s -> Forall P (lstrip s).
Proof.
  induction 1 as [|c r Hc Hr IH]; simpl; [constructor|].
  destruct (isspace c); [exact IH | now constructor].
Qed.

Lemma rstrip_Forall (P : char -> Prop) (s : pystr) :
  Forall P s -> Forall P (rstrip s).
Proof.
  induction 1 as [|c r Hc Hr IH]; cbn [rstrip]; [constructor|].
  destruct (isspace c && py_not (rstrip r))%bool; now constructor.
Qed.

Lemma cleaned_only_spaces (s : pystr) : only_spaces (cleaned s).
Proof.
  unfold cleaned, strip, sub_whitespace.
  apply rstrip_Forall, lstrip_Forall, collapse_from_only_spaces.
Qed.

Lemma count_absent (c : char) (s : pystr) :
  Forall (fun d => d <> c) s -> count c s = 0.
Proof.
  unfold count. induction 1 as [|d r Hd Hr IH]; simpl; [reflexivity|].
  destruct (N.eqb c d) eqn:E; [|exact IH].
  apply N.eqb_eq in E. congruence.
Qed.

Lemma count_newline_cleaned (s : pystr) : count NEWLINE (cleaned s) = 0.
Proof.
  apply count_absent. eapply Forall_impl; [|apply cleaned_only_spaces].
  intros c Hc ->. specialize (Hc eq_refl). discriminate.
Qed.

(** Words are kept as they are by the strip-and-filter comprehension. *)
Lemma stripped_items_words (l : list pystr) :
  Forall is_word l -> stripped_items l = l.
Proof.
  unfold stripped_items. induction 1 as [|w l [Hne Hw] Hl IH]; [reflexivity|].
  simpl. rewrite strip_no_whitespace by exact Hw.
  destruct w; [contradiction|]. simpl.
  rewrite strip_no_whitespace by exact Hw. now rewrite IH.
Qed.

Lemma stripped_items_split (s : pystr) : stripped_items (split s) = split s.
Proof. apply stripped_items_words, split_words. Qed.

(** With a manual separator the items are the words of the cleaned text. *)
Lemma clean_and_split_manual (self : App) (input_string : pystr) :
  manual_separator (separator_var self) ->
  clean_and_split_string self input_string = split (cleaned input_string).
Proof.
  intros H. unfold clean_and_split_string.
  rewrite !stripped_items_split.
  destruct H as [-> | [-> | ->]]; reflexivity.
Qed.

(** *** The marker *)

Lemma sub_slash_n_no_marker (s : pystr) : has_marker s = false -> sub_slash_n s = s.
Proof.
  induction s as [|c r IH]; [reflexivity|].
  destruct r as [|d r']; [reflexivity|].
  intros H. cbn [has_marker] in H. apply orb_false_iff in H as [Hcd Hr].
  change (sub_slash_n (c :: d :: r'))
    with (if (N.eqb c SLASH && N.eqb d LOWER_N)%bool
          then SPACE :: sub_slash_n r' else c :: sub_slash_n (d :: r')).
  rewrite Hcd, (IH Hr). reflexivity.
Qed.

Lemma has_marker_app_cons (a : pystr) (c : char) (b : pystr) :
  has_marker a = false -> has_marker (c :: b) = false -> c <> LOWER_N ->
  has_marker (a ++ c :: b) = false.
Proof.
  intros Ha Hb Hc. induction a as [|x a IH]; [exact Hb|].
  destruct a as [|y a'].
  - simpl app. cbn [has_marker]. cbn [has_marker] in Hb.
    apply orb_false_iff. split; [|exact Hb].
    apply andb_false_iff. right. now apply N.eqb_neq.
  - cbn [has_marker] in Ha. apply orb_false_iff in Ha as [Hxy Ha].
    change ((x :: y :: a') ++ c :: b) with (x :: y :: (a' ++ c :: b)).
    cbn [has_marker]. rewrite Hxy. simpl. apply (IH Ha).
Qed.

Lemma has_marker_cons_other (c : char) (s : pystr) :
  c <> SLASH -> has_marker (c :: s) = has_marker s.
Proof.
  intros Hc. destruct s as [|d s]; [reflexivity|].
  cbn [has_marker]. apply N.eqb_neq in Hc. rewrite Hc. reflexivity.
Qed.

(** *** Joining words with one whitespace character *)

Lemma join_cons2 (sep x y : pystr) (r : list pystr) :
  join sep (x :: y :: r) = x ++ sep ++ join sep (y :: r).
Proof. reflexivity. Qed.

Lemma split_join_space (x : char) (items : list pystr) :
  isspace x = true -> Forall is_word items -> split (join [x] items) = items.
Proof.
  intros Hx. induction 1 as [|w l [Hne Hw] Hl IH]; [reflexivity|].
  destruct l as [|y l].
  - simpl. now apply split_word.
  - rewrite join_cons2.
    change (w ++ [x] ++ join [x] (y :: l)) with (w ++ x :: join [x] (y :: l)).
    rewrite split_word_then_space by assumption. now rewrite IH.
Qed.

Lemma has_marker_join_space (x : char) (items : list pystr) :
  isspace x = true ->
  Forall (fun item => has_marker item = false) items ->
  has_marker (join [x] items) = false.
Proof.
  intros Hx. induction 1 as [|w l Hw Hl IH]; [reflexivity|].
  destruct l as [|y l]; [exact Hw|].
  rewrite join_cons2.
  change (w ++ [x] ++ join [x] (y :: l)) with (w ++ x :: join [x] (y :: l)).
  assert (x <> SLASH) by (intros ->; discriminate).
  assert (x <> LOWER_N) by (intros ->; discriminate).
  apply has_marker_app_cons; try assumption.
  now rewrite has_marker_cons_other.
Qed.

(** The comma style writes the items, each but the last with its comma,
    separated by single spaces. *)
Lemma join_comma_space (items : list pystr) :
  join (py ", ") items = join [SPACE] (comma_suffixed items).
Proof.
  induction items as [|x [|y l] IH]; try reflexivity.
  rewrite join_cons2. change (comma_suffixed (x :: y :: l))
    with ((x ++ [COMMA]) :: comma_suffixed (y :: l)).
  rewrite IH. destruct (comma_suffixed (y :: l)) as [|z l'] eqn:E.
  - destruct l; discriminate.
  - rewrite join_cons2. rewrite <- !app_assoc. reflexivity.
Qed.

Lemma comma_suffixed_plain (items : list pystr) :
  Forall plain_item items -> Forall plain_item (comma_suffixed items).
Proof.
  induction 1 as [|x l Hx Hl IH]; [constructor|].
  destruct l as [|y l]; [constructor; [exact Hx | constructor]|].
  change (comma_suffixed (x :: y :: l))
    with ((x ++ [COMMA]) :: comma_suffixed (y :: l)).
  constructor; [|exact IH].
  destruct Hx as (Hne & Hws & Hm). repeat split.
  - destruct x; discriminate.
  - apply no_whitespace_app. split; [exact Hws | reflexivity].
  - apply has_marker_app_cons; [exact Hm | reflexivity | discriminate].
Qed.

(** Tokenising plain items joined by one whitespace character. *)
Lemma tokens_of_join_space (self : App) (x : char) (items : list pystr) :
  manual_separator (separator_var self) -> isspace x = true ->
  Forall plain_item items ->
  clean_and_split_string self (join [x] items) = items.
Proof.
  intros Hsep Hx Hitems.
  rewrite clean_and_split_manual, split_cleaned by exact Hsep.
  rewrite sub_slash_n_no_marker.
  - apply split_join_space; [exact Hx|].
    eapply Forall_impl; [|exact Hitems]. intros w (Hne & Hw & _). now split.
  - apply has_marker_join_space; [exact Hx|].
    eapply Forall_impl; [|exact Hitems]. now intros w (_ & _ & Hm).
Qed.

End Normalisation.

(* ================================================================== *)
(** * Facts about the formatters and [process_string] *)
(* ================================================================== *)

Section Formatting.

Lemma enumerate_from_length {A : Type} (start : nat) (l : list A) :
  List.length (enumerate_from start l) = List.length l.
Proof.
  revert start; induction l as [|x l IH]; intros start; simpl;
    [reflexivity | now rewrite IH].
Qed.

Lemma enumerate_from_values {A : Type} (key : nat -> pystr) (start : nat)
    (l : list A) :
  map snd (map (fun '(i, item) => (key i, item)) (enumerate_from start l)) = l.
Proof.
  revert start; induction l as [|x l IH]; intros start; simpl;
    [reflexivity | now rewrite IH].
Qed.

Lemma enumerate_from_keys {A : Type} (key : nat -> pystr) (start : nat)
    (l : list A) :
  map fst (map (fun '(i, item) => (key i, item)) (enumerate_from start l))
  = map key (seq start (List.length l)).
Proof.
  revert start; induction l as [|x l IH]; intros start; simpl;
    [reflexivity | now rewrite IH].
Qed.

(** [format_as_dict] opens no box, or the one about the prefix and then
    returns [None]. *)
Lemma dict_pairs_shown (self : App) (items : list pystr) :
  snd (dict_pairs self items) = []
  \/ dict_pairs self items = (None, [MissingPrefix]).
Proof.
  unfold dict_pairs.
  repeat match goal with
  | |- context [if ?b then _ else _] => destruct b
  end; (left; reflexivity) || (right; reflexivity).
Qed.

Lemma format_as_dict_shown (self : App) (items : list pystr) :
  snd (format_as_dict self items) = []
  \/ format_as_dict self items = (None, [MissingPrefix]).
Proof.
  unfold format_as_dict.
  destruct (dict_pairs_shown self items) as [H | H].
  - left. destruct (dict_pairs self items) as [[ps|] shown];
      simpl in *; subst; reflexivity.
  - right. rewrite H. reflexivity.
Qed.

Lemma format_as_dict_missing_prefix (self : App) (items : list pystr) :
  dict_key_type self = py "user_defined" -> strip (user_prefix self) = [] ->
  format_as_dict self items = (None, [MissingPrefix]).
Proof.
  intros Hkey Hprefix. unfold format_as_dict, dict_pairs.
  option_is Hkey. rewrite Hprefix. reflexivity.
Qed.

(** The two refusals of [process_string]. *)
Lemma process_string_empty_input (self : App) :
  strip (input_text self) = [] -> process_string self = (self, [EmptyInput]).
Proof. intros H. unfold process_string. rewrite H. reflexivity. Qed.

Lemma process_string_no_items (self : App) :
  strip (input_text self) <> [] ->
  clean_and_split_string self (strip (input_text self)) = [] ->
  process_string self = (self, [NoItemsFound]).
Proof.
  intros Hin Hitems. unfold process_string.
  apply py_not_false in Hin. rewrite Hin, Hitems. reflexivity.
Qed.

(** Past the two refusals the output area receives the header followed
    by a body. *)
Lemma process_string_writes (self : App) :
  let items := clean_and_split_string self (strip (input_text self)) in
  strip (input_text self) <> [] -> items <> [] ->
  exists body shown,
    process_string self
    = (set_output_text self
         (item_count_header (count_actual_content items) ++ body), shown)
    /\ (shown = [] \/ shown = [MissingPrefix]).
Proof.
  intros items Hin Hitems. unfold process_string. fold items.
  apply py_not_false in Hin. apply py_not_false in Hitems.
  rewrite Hin, Hitems.
  set (header := item_count_header (count_actual_content items)).
  destruct (format_with_separator_style self items (format_type self)) as [sf|].
  { exists sf, (@nil Dialog). split; [reflexivity | now left]. }
  destruct (is_lit (format_type self) "list").
  { eexists; exists (@nil Dialog). split; [reflexivity | now left]. }
  destruct (is_lit (format_type self) "dict").
  { destruct (format_as_dict_shown self items) as [H | H].
    - destruct (format_as_dict self items) as [[d|] shown] eqn:E;
        simpl in H; subst shown.
      + exists d, (@nil Dialog). split; [reflexivity | now left].
      + destruct (format_with_separator_style self items (py "none")) as [sf|].
        * exists sf, (@nil Dialog). split; [reflexivity | now left].
        * exists (@nil char), (@nil Dialog). rewrite app_nil_r. split; [reflexivity | now left].
    - rewrite H.
      destruct (format_with_separator_style self items (py "none")) as [sf|].
      + exists sf, [MissingPrefix]. split; [reflexivity | now right].
      + exists (@nil char), [MissingPrefix]. rewrite app_nil_r.
        split; [reflexivity | now right]. }
  destruct (is_lit (format_type self) "tuple").
  { eexists; exists (@nil Dialog). split; [reflexivity | now left]. }
  exists (@nil char), (@nil Dialog). rewrite app_nil_r.
  destruct (is_lit (format_type self) "none");
    (split; [reflexivity | now left]).
Qed.

(** [str(n)] is a non-empty sequence of decimal digits. *)
Lemma string_of_uint_digits (d : Decimal.uint) :
  Forall is_digit (py (NilEmpty.string_of_uint d)).
Proof. induction d; simpl; constructor; try reflexivity; assumption. Qed.

Lemma str_of_nat_digits (n : nat) :
  str_of_nat n <> [] /\ Forall is_digit (str_of_nat n).
Proof.
  unfold str_of_nat, NilZero.string_of_uint.
  destruct (Nat.to_uint n) eqn:E;
    try (split; [discriminate | rewrite <- E; apply string_of_uint_digits]).
  split; [discriminate | repeat constructor].
Qed.

End Formatting.

Section Refusals.

Lemma lstrip_all_space (s : pystr) : forallb isspace s = true -> lstrip s = [].
Proof.
  induction s as [|c r IH]; simpl; [reflexivity|].
  intros H. apply andb_true_iff in H as [Hc Hr]. rewrite Hc. now apply IH.
Qed.

Lemma strip_all_space (s : pystr) : forallb isspace s = true -> strip s = [].
Proof. intros H. unfold strip. now rewrite lstrip_all_space. Qed.

Lemma rstrip_idempotent (s : pystr) : rstrip (rstrip s) = rstrip s.
Proof.
  induction s as [|c r IH]; [reflexivity|].
  cbn [rstrip]. destruct (isspace c && py_not (rstrip r))%bool eqn:E;
    [reflexivity|].
  cbn [rstrip]. rewrite IH, E. reflexivity.
Qed.

Lemma lstrip_rstrip_lstrip (s : pystr) : lstrip (rstrip (lstrip s)) = rstrip (lstrip s).
Proof.
  induction s as [|c r IH]; [reflexivity|].
  simpl lstrip at 2 3. destruct (isspace c) eqn:Hc; [exact IH|].
  cbn [rstrip]. rewrite Hc. simpl. now rewrite Hc.
Qed.

Lemma strip_idempotent (s : pystr) : strip (strip s) = strip s.
Proof.
  unfold strip. rewrite lstrip_rstrip_lstrip. apply rstrip_idempotent.
Qed.

(** The items of [clean_and_split_string] are trimmed and not empty. *)
Lemma stripped_items_trimmed (pieces : list pystr) :
  Forall (fun item => item <> [] /\ strip item = item) (stripped_items pieces).
Proof.
  unfold stripped_items. induction pieces as [|p l IH]; simpl; [constructor|].
  destruct (py_not (strip p)) eqn:E; simpl; [exact IH|].
  constructor; [|exact IH].
  split; [now apply py_not_false | apply strip_idempotent].
Qed.

Lemma clean_and_split_trimmed (self : App) (input_string : pystr) :
  Forall (fun item => item <> [] /\ strip item = item)
         (clean_and_split_string self input_string).
Proof.
  unfold clean_and_split_string.
  repeat match goal with
  | |- context [if ?b then _ else _] => destruct b
  end; apply stripped_items_trimmed.
Qed.

(** *** Trimming the input first does not change the cleaned text *)

Lemma sub_slash_n_cons_space (c : char) (r : pystr) :
  isspace c = true -> sub_slash_n (c :: r) = c :: sub_slash_n r.
Proof.
  intros Hc. destruct r as [|d r]; [reflexivity|].
  change (sub_slash_n (c :: d :: r))
    with (if (N.eqb c SLASH && N.eqb d LOWER_N)%bool
          then SPACE :: sub_slash_n r else c :: sub_slash_n (d :: r)).
  destruct (N.eqb c SLASH) eqn:E; [|reflexivity].
  apply N.eqb_eq in E. subst c. discriminate.
Qed.

Lemma sub_slash_n_all_space (t : pystr) :
  forallb isspace t = true -> sub_slash_n t = t.
Proof.
  induction t as [|c t IH]; [reflexivity|]. intros H.
  apply andb_true_iff in H as [Hc Ht].
  rewrite sub_slash_n_cons_space by exact Hc. now rewrite IH.
Qed.

Lemma sub_slash_n_app_spaces (t : pystr) :
  forallb isspace t = true ->
  forall a, sub_slash_n (a ++ t) = sub_slash_n a ++ t.
Proof.
  intros Ht.
  assert (H : forall a,
             sub_slash_n (a ++ t) = sub_slash_n a ++ t
             /\ forall c, sub_slash_n ((c :: a) ++ t) = sub_slash_n (c :: a) ++ t).
  { induction a as [|d a [IH1 IH2]].
    - split; [now apply sub_slash_n_all_space|].
      intros c. destruct t as [|x t']; [reflexivity|].
      simpl in Ht. apply andb_true_iff in Ht as [Hx Ht'].
      change (sub_slash_n (([c]) ++ x :: t'))
        with (if (N.eqb c SLASH && N.eqb x LOWER_N)%bool
              then SPACE :: sub_slash_n t' else c :: sub_slash_n (x :: t')).
      destruct (N.eqb x LOWER_N) eqn:E.
      + apply N.eqb_eq in E. subst x. discriminate.
      + rewrite andb_false_r, sub_slash_n_cons_space by exact Hx.
        rewrite sub_slash_n_all_space by exact Ht'. reflexivity.
    - split; [apply IH2|]. intros c.
      change (sub_slash_n ((c :: d :: a) ++ t))
        with (if (N.eqb c SLASH && N.eqb d LOWER_N)%bool
              then SPACE :: sub_slash_n (a ++ t)
              else c :: sub_slash_n ((d :: a) ++ t)).
      change (sub_slash_n (c :: d :: a))
        with (if (N.eqb c SLASH && N.eqb d LOWER_N)%bool
              then SPACE :: sub_slash_n a else c :: sub_slash_n (d :: a)).
      rewrite IH1, IH2.
      destruct (N.eqb c SLASH && N.eqb d LOWER_N)%bool; reflexivity. }
  intros a. apply H.
Qed.

Lemma collapse_from_all_space (b : bool) (t : pystr) :
  forallb isspace t = true -> forallb isspace (collapse_from b t) = true.
Proof.
  revert b; induction t as [|c t IH]; intros b H; [reflexivity|].
  simpl in H. apply andb_true_iff in H as [Hc Ht].
  cbn [collapse_from]. rewrite Hc.
  destruct b; [now apply IH|]. simpl. now apply IH.
Qed.

Lemma collapse_from_app_spaces (t : pystr) :
  forallb isspace t = true ->
  forall a b, exists t',
    collapse_from b (a ++ t) = collapse_from b a ++ t'
    /\ forallb isspace t' = true.
Proof.
  intros Ht. induction a as [|c a IH]; intros b.
  - exists (collapse_from b t). split; [reflexivity|].
    now apply collapse_from_all_space.
  - rewrite <- app_comm_cons. cbn [collapse_from].
    destruct (isspace c); [destruct b|].
    + apply IH.
    + destruct (IH true) as (t' & E & Ht'). exists t'. now rewrite E.
    + destruct (IH false) as (t' & E & Ht'). exists t'. now rewrite E.
Qed.

Lemma rstrip_all_space (t : pystr) : forallb isspace t = true -> rstrip t = [].
Proof.
  induction t as [|c t IH]; [reflexivity|]. intros H.
  simpl in H. apply andb_true_iff in H as [Hc Ht].
  cbn [rstrip]. rewrite Hc, IH by exact Ht. reflexivity.
Qed.

Lemma rstrip_app_spaces (t : pystr) :
  forallb isspace t = true -> forall a, rstrip (a ++ t) = rstrip a.
Proof.
  intros Ht. induction a as [|c a IH]; [now apply rstrip_all_space|].
  rewrite <- app_comm_cons. cbn [rstrip]. now rewrite IH.
Qed.

Lemma strip_app_spaces (t : pystr) :
  forallb isspace t = true -> forall a, strip (a ++ t) = strip a.
Proof.
  intros Ht a. unfold strip. induction a as [|c a IH].
  - simpl. now rewrite lstrip_all_space.
  - rewrite <- app_comm_cons. simpl. destruct (isspace c); [exact IH|].
    rewrite app_comm_cons. now apply rstrip_app_spaces.
Qed.

Lemma cleaned_app_spaces (t : pystr) :
  forallb isspace t = true -> forall a, cleaned (a ++ t) = cleaned a.
Proof.
  intros Ht a. unfold cleaned, sub_whitespace.
  rewrite sub_slash_n_app_spaces by exact Ht.
  destruct (collapse_from_app_spaces t Ht (sub_slash_n a) false)
    as (t' & E & Ht').
  rewrite E. now apply strip_app_spaces.
Qed.

Lemma lstrip_collapse_from (b : bool) (r : pystr) :
  lstrip (collapse_from b r) = lstrip (collapse_from false r).
Proof.
  destruct b; [|reflexivity]. destruct r as [|c r]; [reflexivity|].
  cbn [collapse_from]. destruct (isspace c); reflexivity.
Qed.

Lemma cleaned_cons_space (c : char) (r : pystr) :
  isspace c = true -> cleaned (c :: r) = cleaned r.
Proof.
  intros Hc. unfold cleaned, strip, sub_whitespace.
  rewrite sub_slash_n_cons_space by exact Hc.
  cbn [collapse_from]. rewrite Hc.
  change (lstrip (SPACE :: collapse_from true (sub_slash_n r)))
    with (lstrip (collapse_from true (sub_slash_n r))).
  now rewrite lstrip_collapse_from.
Qed.

Lemma cleaned_lstrip (s : pystr) : cleaned (lstrip s) = cleaned s.
Proof.
  induction s as [|c r IH]; [reflexivity|]. simpl.
  destruct (isspace c) eqn:Hc; [|reflexivity].
  now rewrite cleaned_cons_space.
Qed.

Lemma rstrip_then_spaces (s : pystr) :
  exists t, s = rstrip s ++ t /\ forallb isspace t = true.
Proof.
  induction s as [|c r (t & E & Ht)]; [now exists []|].
  cbn [rstrip]. destruct (isspace c && py_not (rstrip r))%bool eqn:B.
  - apply andb_true_iff in B as [Hc Hr]. apply py_not_true in Hr.
    exists (c :: t). rewrite Hr in E. simpl in E. subst r.
    split; [reflexivity|]. simpl. now rewrite Hc.
  - exists t. split; [|exact Ht]. simpl. now rewrite <- E.
Qed.

Lemma cleaned_rstrip (s : pystr) : cleaned (rstrip s) = cleaned s.
Proof.
  destruct (rstrip_then_spaces s) as (t & E & Ht).
  rewrite E at 2. now rewrite cleaned_app_spaces.
Qed.

Lemma cleaned_strip (s : pystr) : cleaned (strip s) = cleaned s.
Proof. unfold strip. now rewrite cleaned_rstrip, cleaned_lstrip. Qed.

(** [process_string] tokenises the trimmed input; the items are those of
    the input as it was entered. *)
Lemma clean_and_split_strip (self : App) (raw : pystr) :
  clean_and_split_string self (strip raw) = clean_and_split_string self raw.
Proof. unfold clean_and_split_string. now rewrite cleaned_strip. Qed.

Lemma all_space_of_rstrip_nil (t : pystr) : rstrip t = [] -> forallb isspace t = true.
Proof.
  induction t as [|c t IH]; [reflexivity|]. cbn [rstrip].
  destruct (isspace c && py_not (rstrip t))%bool eqn:B; [|discriminate].
  intros _. apply andb_true_iff in B as [Hc Ht]. apply py_not_true in Ht.
  simpl. now rewrite Hc, IH.
Qed.

Lemma all_space_of_strip_nil (s : pystr) : strip s = [] -> forallb isspace s = true.
Proof.
  unfold strip. induction s as [|c r IH]; [reflexivity|]. simpl.
  destruct (isspace c) eqn:Hc; [exact IH|].
  intros H. apply all_space_of_rstrip_nil in H. simpl in H. now rewrite Hc in H.
Qed.

Lemma strip_not_all_space (s : pystr) : forallb isspace s = false -> strip s <> [].
Proof.
  intros H E. apply all_space_of_strip_nil in E. congruence.
Qed.

(** With the [user_defined] strategy and no prefix the box is opened and
    the output is written all the same. *)
Lemma process_string_missing_prefix (self : App) :
  let items := clean_and_split_string self (strip (input_text self)) in
  format_type self = py "dict" -> dict_key_type self = py "user_defined" ->
  strip (user_prefix self) = [] ->
  strip (input_text self) <> [] -> items <> [] ->
  process_string self
  = (set_output_text self
       (item_count_header (count_actual_content items)
        ++ match format_with_separator_style self items (py "none") with
           | Some separator_format => separator_format
           | None => []
           end),
     [MissingPrefix]).
Proof.
  intros items Hfmt Hkey Hprefix Hin Hitems.
  unfold process_string. fold items.
  apply py_not_false in Hin. apply py_not_false in Hitems.
  rewrite Hin, Hitems.
  assert (Hstyle : format_with_separator_style self items (format_type self) = None).
  { unfold format_with_separator_style. option_is Hfmt.
    rewrite !andb_false_r. reflexivity. }
  rewrite Hstyle. option_is Hfmt.
  rewrite (format_as_dict_missing_prefix self items Hkey Hprefix).
  destruct (format_with_separator_style self items (py "none"));
    [reflexivity | now rewrite app_nil_r].
Qed.

Lemma clean_and_split_nil (self : App) : clean_and_split_string self [] = [].
Proof.
  unfold clean_and_split_string.
  repeat match goal with
  | |- context [if ?b then _ else _] => destruct b
  end; reflexivity.
Qed.

End Refusals.

(* ================================================================== *)
(** * Properties of the specification *)
(* ================================================================== *)

(** ** Separator detection *)

(** C5.  Detection returns the comma when the text has at least one comma
    and no more newlines than commas; otherwise the newline when the text
    has at least one newline; otherwise the space, which is also what the
    empty text gives. *)
Theorem auto_detect_separator_rule (text : pystr) :
  let comma_count := count COMMA text in
  let newline_count := count NEWLINE text in
  (0 < comma_count /\ newline_count <= comma_count ->
     auto_detect_separator text = COMMA)
  /\ (~ (0 < comma_count /\ newline_count <= comma_count) ->
      0 < newline_count -> auto_detect_separator text = NEWLINE)
  /\ (~ (0 < comma_count /\ newline_count <= comma_count) ->
      ~ 0 < newline_count -> auto_detect_separator text = SPACE)
  /\ auto_detect_separator [] = SPACE.
Proof.
  intros comma_count newline_count. unfold auto_detect_separator.
  destruct text as [|c r].
  - subst comma_count newline_count. unfold count. simpl.
    repeat split; intros; try reflexivity; lia.
  - cbn [py_not]. fold comma_count newline_count.
    destruct (Nat.ltb_spec 0 comma_count) as [Hc | Hc];
      destruct (Nat.leb_spec newline_count comma_count) as [Hn | Hn];
      destruct (Nat.ltb_spec 0 newline_count) as [Hl | Hl]; cbn [andb];
      repeat split; intros; try reflexivity; lia.
Qed.

Lemma auto_detect_separator_rule_witness :
  auto_detect_separator (py "a,b,c") = COMMA
  /\ auto_detect_separator [97; NEWLINE; 98]%N = NEWLINE
  /\ auto_detect_separator (py "a b") = SPACE.
Proof.
  split; [|split].
  - apply (auto_detect_separator_rule (py "a,b,c")). vm_compute. lia.
  - apply (auto_detect_separator_rule [97; NEWLINE; 98]%N); vm_compute; lia.
  - apply (auto_detect_separator_rule (py "a b")); vm_compute; lia.
Defined.

(** ** Tokenisation *)

(** C3.  With each of the manual separators the items are the words of
    the normalised text, so any two manual choices give the same items;
    the choice shows only in the text that joins the items when no format
    is selected. *)
Theorem manual_separators_split_on_whitespace (self self' : App) (raw : pystr) :
  manual_separator (separator_var self) ->
  manual_separator (separator_var self') ->
  clean_and_split_string self raw = split (cleaned raw)
  /\ clean_and_split_string self' raw = clean_and_split_string self raw
  /\ forall items,
       exists style,
         format_with_separator_style self items (py "none") = Some (join style items)
         /\ ((separator_var self = py "space" /\ style = py " ")
             \/ (separator_var self = py "comma" /\ style = py ", ")
             \/ (separator_var self = py "newline" /\ style = [NEWLINE])).
Proof.
  intros H H'. split; [|split].
  - now apply clean_and_split_manual.
  - now rewrite !clean_and_split_manual.
  - intros items. unfold format_with_separator_style.
    destruct H as [E | [E | E]]; option_is E.
    + exists (py " "). split; [reflexivity | now left].
    + exists (py ", "). split; [reflexivity | right; now left].
    + exists [NEWLINE]. split; [reflexivity | right; now right].
Qed.

Lemma manual_separators_split_on_whitespace_witness :
  clean_and_split_string (app_with "" "comma" "none" "none" "" []) (py "a,b  c")
    = [py "a,b"; py "c"]
  /\ clean_and_split_string (app_with "" "newline" "none" "none" "" []) (py "a,b  c")
     = clean_and_split_string (app_with "" "comma" "none" "none" "" []) (py "a,b  c").
Proof.
  pose proof (manual_separators_split_on_whitespace
                (app_with "" "comma" "none" "none" "" [])
                (app_with "" "newline" "none" "none" "" [])
                (py "a,b  c")
                (or_intror (or_introl eq_refl))
                (or_intror (or_intror eq_refl))) as (H1 & H2 & _).
  split; [rewrite H1; reflexivity | exact H2].
Defined.

(** C10.  With automatic detection the text that detection reads is the
    cleaned text, which holds no newline: the separator used to split is
    the comma or the space, never the newline. *)
Theorem auto_never_splits_on_newline (self : App) (raw : pystr) :
  separator_var self = py "auto" ->
  let separator := auto_detect_separator (cleaned raw) in
  count NEWLINE (cleaned raw) = 0
  /\ only_spaces (cleaned raw)
  /\ separator <> NEWLINE
  /\ (separator = COMMA \/ separator = SPACE)
  /\ clean_and_split_string self raw
     = stripped_items (split_on separator (cleaned raw)).
Proof.
  intros Hsep separator.
  pose proof (count_newline_cleaned raw) as Hnl.
  assert (Hcs : separator = COMMA \/ separator = SPACE).
  { subst separator. unfold auto_detect_separator. rewrite Hnl.
    destruct (py_not (cleaned raw)); [now right|].
    destruct (0 <? count COMMA (cleaned raw)); simpl; [now left | now right]. }
  repeat split.
  - exact Hnl.
  - apply cleaned_only_spaces.
  - destruct Hcs as [-> | ->]; discriminate.
  - exact Hcs.
  - unfold clean_and_split_string. option_is Hsep. reflexivity.
Qed.

Lemma auto_never_splits_on_newline_witness :
  auto_detect_separator (cleaned [97; NEWLINE; 98; NEWLINE; 99]%N) <> NEWLINE
  /\ clean_and_split_string (app_with "" "auto" "none" "none" "" [])
       [97; NEWLINE; 98; NEWLINE; 99]%N
     = [py "a"; py "b"; py "c"].
Proof.
  pose proof (auto_never_splits_on_newline
                (app_with "" "auto" "none" "none" "" [])
                [97; NEWLINE; 98; NEWLINE; 99]%N eq_refl) as (_ & _ & H & _ & E).
  split; [exact H | rewrite E; reflexivity].
Defined.

(** C4.  Round trip of the tokeniser, as the code has it: for items that
    are not empty and hold neither whitespace nor the marker [/n], the
    text that the space or the newline style joins tokenises back to the
    items; the text that the comma style joins tokenises to the items with
    a comma appended to each but the last. *)
Theorem tokenize_join_round_trip (self : App) (items : list pystr) (joined : pystr) :
  Forall plain_item items ->
  format_with_separator_style self items (py "none") = Some joined ->
  (separator_var self = py "space" \/ separator_var self = py "newline" ->
     clean_and_split_string self joined = items)
  /\ (separator_var self = py "comma" ->
      clean_and_split_string self joined = comma_suffixed items).
Proof.
  intros Hitems Hjoin. unfold format_with_separator_style in Hjoin. split.
  - intros [E | E]; option_is E; injection Hjoin as <-.
    + apply tokens_of_join_space; [left; exact E | reflexivity | exact Hitems].
    + apply tokens_of_join_space;
        [right; right; exact E | reflexivity | exact Hitems].
  - intros E. option_is E. injection Hjoin as <-.
    rewrite join_comma_space.
    apply tokens_of_join_space;
      [right; left; exact E | reflexivity | now apply comma_suffixed_plain].
Qed.

Lemma tokenize_join_round_trip_witness :
  clean_and_split_string (app_with "" "newline" "none" "none" "" [])
    [97; NEWLINE; 98; 44; 99]%N = [py "a"; py "b,c"]
  /\ clean_and_split_string (app_with "" "comma" "none" "none" "" [])
       (py "a, b,c") = [py "a,"; py "b,c"].
Proof.
  assert (Hitems : Forall plain_item [py "a"; py "b,c"]).
  { repeat constructor; discriminate. }
  split.
  - apply (tokenize_join_round_trip
             (app_with "" "newline" "none" "none" "" [])
             [py "a"; py "b,c"] [97; NEWLINE; 98; 44; 99]%N Hitems eq_refl).
    right. reflexivity.
  - apply (tokenize_join_round_trip
             (app_with "" "comma" "none" "none" "" [])
             [py "a"; py "b,c"] (py "a, b,c") Hitems eq_refl).
    reflexivity.
Defined.

(** The round trip as the claim words it fails: the comma style joins
    [a] and [b] into [a, b], whose tokens are [a,] and [b]; and the item
    [a/nb], which holds no whitespace, comes back as the two items [a]
    and [b]. *)
Lemma tokenize_join_round_trip_fails :
  (let self := app_with "" "comma" "none" "none" "" [] in
   let items := [py "a"; py "b"] in
   items <> [] /\ Forall no_whitespace items
   /\ format_with_separator_style self items (py "none") = Some (py "a, b")
   /\ clean_and_split_string self (py "a, b") = [py "a,"; py "b"]
   /\ clean_and_split_string self (py "a, b") <> items)
  /\ (let self := app_with "" "space" "none" "none" "" [] in
      let items := [py "a/nb"] in
      items <> [] /\ Forall no_whitespace items
      /\ format_with_separator_style self items (py "none") = Some (py "a/nb")
      /\ clean_and_split_string self (py "a/nb") = [py "a"; py "b"]
      /\ clean_and_split_string self (py "a/nb") <> items).
Proof.
  split; cbv zeta; repeat split; try discriminate;
    repeat constructor.
Qed.

(** ** Dictionary keys *)

(** C7.  The strategy [none] yields no pairs.  Each of [index], [auto],
    [first_word] and [user_defined] with a prefix yields one pair per
    item, in the order of the items: the values are the items themselves,
    and the keys are the positions, [item_] or the prefix followed by the
    position counted from one; for [first_word] the pair of each item is
    its [first_word_pair]. *)
Theorem key_strategies_one_pair_per_item (self : App) (items : list pystr) :
  (dict_key_type self = py "none" -> dict_pairs self items = (None, []))
  /\ (key_strategy_applies self ->
      exists pairs,
        dict_pairs self items = (Some pairs, [])
        /\ List.length pairs = List.length items
        /\ (dict_key_type self = py "index" ->
            map snd pairs = items
            /\ map fst pairs = map str_of_nat (seq 0 (List.length items)))
        /\ (dict_key_type self = py "auto" ->
            map snd pairs = items
            /\ map fst pairs
               = map (fun i => py "item_" ++ str_of_nat (i + 1))
                     (seq 0 (List.length items)))
        /\ (dict_key_type self = py "user_defined" ->
            map snd pairs = items
            /\ map fst pairs
               = map (fun i => strip (user_prefix self) ++ py "_" ++ str_of_nat (i + 1))
                     (seq 0 (List.length items)))
        /\ (dict_key_type self = py "first_word" ->
            pairs = map first_word_pair items)).
Proof.
  split.
  - intros E. unfold dict_pairs. option_is E. reflexivity.
  - intros [E | [E | [E | [E Hprefix]]]]; unfold dict_pairs; option_is E.
    + eexists. split; [reflexivity|].
      rewrite length_map. unfold enumerate. rewrite enumerate_from_length.
      repeat split; try discriminate.
      * apply (enumerate_from_values str_of_nat).
      * apply (enumerate_from_keys str_of_nat).
    + eexists. split; [reflexivity|].
      rewrite length_map. unfold enumerate. rewrite enumerate_from_length.
      repeat split; try discriminate.
      * apply (enumerate_from_values (fun i => py "item_" ++ str_of_nat (i + 1))).
      * apply (enumerate_from_keys (fun i => py "item_" ++ str_of_nat (i + 1))).
    + eexists. split; [reflexivity|]. rewrite length_map.
      repeat split; discriminate.
    + apply py_not_false in Hprefix. rewrite Hprefix.
      eexists. split; [reflexivity|].
      rewrite length_map. unfold enumerate. rewrite enumerate_from_length.
      repeat split; try discriminate.
      * apply (enumerate_from_values
                 (fun i => strip (user_prefix self) ++ py "_" ++ str_of_nat (i + 1))).
      * apply (enumerate_from_keys
                 (fun i => strip (user_prefix self) ++ py "_" ++ str_of_nat (i + 1))).
Qed.

Lemma key_strategies_one_pair_per_item_witness :
  dict_pairs (app_with "" "auto" "dict" "none" "" []) [py "x"; py "y"] = (None, [])
  /\ exists pairs,
       dict_pairs (app_with "" "auto" "dict" "user_defined" " k " []) [py "x"; py "y"]
         = (Some pairs, [])
       /\ List.length pairs = 2
       /\ map snd pairs = [py "x"; py "y"]
       /\ map fst pairs = [py "k_1"; py "k_2"].
Proof.
  split.
  - apply (key_strategies_one_pair_per_item
             (app_with "" "auto" "dict" "none" "" []) [py "x"; py "y"]).
    reflexivity.
  - destruct (proj2 (key_strategies_one_pair_per_item
                       (app_with "" "auto" "dict" "user_defined" " k " [])
                       [py "x"; py "y"]))
      as (pairs & Hrun & Hlen & _ & _ & Huser & _).
    + right; right; right. split; [reflexivity | discriminate].
    + exists pairs. destruct (Huser eq_refl) as [Hv Hk].
      repeat split; assumption.
Defined.

(** C8.  For an item that splits into at least one word the key of the
    [first_word] entry is the first word; the value is the other words
    joined by single spaces when there are others, and the whole item
    when the word is alone.  An item of one word that is trimmed, as every
    item of the tokeniser is, has itself as key and as value. *)
Theorem first_word_key_and_value (item key : pystr) (others : list pystr) :
  split item = key :: others ->
  first_word_pair item
  = (key, match others with
          | [] => item
          | _ :: _ => join (py " ") others
          end)
  /\ (others = [] -> strip item = item -> first_word_pair item = (item, item))
  /\ (others = [] ->
      forall self raw, In item (clean_and_split_string self raw) ->
                       first_word_pair item = (item, item)).
Proof.
  intros Hsplit.
  assert (Hone : others = [] -> strip item = item ->
                 first_word_pair item = (item, item)).
  { intros -> Htrim. unfold first_word_pair. rewrite Hsplit.
    apply strip_split_one in Hsplit. simpl. congruence. }
  split; [|split].
  - unfold first_word_pair. rewrite Hsplit. destruct others; reflexivity.
  - exact Hone.
  - intros Hothers self raw Hin. apply Hone; [exact Hothers|].
    pose proof (clean_and_split_trimmed self raw) as Hall.
    rewrite Forall_forall in Hall. now apply Hall.
Qed.

Lemma first_word_key_and_value_witness :
  first_word_pair (py "c  d e") = (py "c", py "d e")
  /\ first_word_pair (py "BIS_fnc") = (py "BIS_fnc", py "BIS_fnc").
Proof.
  split.
  - apply (first_word_key_and_value (py "c  d e") (py "c") [py "d"; py "e"]).
    reflexivity.
  - apply (first_word_key_and_value (py "BIS_fnc") (py "BIS_fnc") []);
      reflexivity.
Defined.

(** ** The main processing method *)

(** C6.  A call of [process_string] is never a silent success: it opens
    the box of [EmptyInput] or of [NoItemsFound] and leaves the state as
    it was, or it writes an output that starts with [Item count: ], the
    content count of the items in decimal digits and a blank line, before
    any body. *)
Theorem process_string_never_silent (self : App) :
  let items := clean_and_split_string self (input_text self) in
  let content_count := count_actual_content items in
  process_string self = (self, [EmptyInput])
  \/ process_string self = (self, [NoItemsFound])
  \/ (exists body,
        output_text (fst (process_string self))
        = py "Item count: " ++ str_of_nat content_count
          ++ [NEWLINE; NEWLINE] ++ body
        /\ str_of_nat content_count <> []
        /\ Forall is_digit (str_of_nat content_count)
        /\ (snd (process_string self) = []
            \/ snd (process_string self) = [MissingPrefix])).
Proof.
  intros items content_count. subst items content_count.
  rewrite <- clean_and_split_strip.
  set (items := clean_and_split_string self (strip (input_text self))).
  set (content_count := count_actual_content items).
  destruct (strip (input_text self)) as [|c r] eqn:Hin.
  { left. now apply process_string_empty_input. }
  destruct items as [|item items'] eqn:Hitems.
  { right; left. apply process_string_no_items; [now rewrite Hin|].
    rewrite Hin. exact Hitems. }
  right; right.
  destruct (process_string_writes self) as (body & shown & Hrun & Hshown).
  - rewrite Hin. discriminate.
  - rewrite Hin. fold items. rewrite Hitems. discriminate.
  - exists body. rewrite Hrun. rewrite Hin. fold items. rewrite Hitems.
    fold content_count. cbn [fst snd output_text set_output_text].
    unfold item_count_header. rewrite <- !app_assoc.
    pose proof (str_of_nat_digits content_count) as [Hne Hdigits].
    repeat split; assumption.
Qed.

(** C9.  An input that is empty or made of whitespace only is refused
    with [EmptyInput]; any other input whose tokenisation yields no item
    is refused with [NoItemsFound].  In both cases nothing is formatted
    and the state, the output area included, is left as it was. *)
Theorem process_string_refusals (self : App) :
  (forallb isspace (input_text self) = true ->
     process_string self = (self, [EmptyInput])
     /\ output_text (fst (process_string self)) = output_text self)
  /\ (forallb isspace (input_text self) = false ->
      clean_and_split_string self (input_text self) = [] ->
      process_string self = (self, [NoItemsFound])
      /\ output_text (fst (process_string self)) = output_text self).
Proof.
  split.
  - intros H. apply strip_all_space in H.
    rewrite (process_string_empty_input self H). split; reflexivity.
  - intros Hin Hitems. apply strip_not_all_space in Hin.
    rewrite <- clean_and_split_strip in Hitems.
    rewrite (process_string_no_items self Hin Hitems). split; reflexivity.
Qed.

Lemma process_string_refusals_witness :
  process_string (mkApp [SPACE; NEWLINE] (py "auto") (py "list") (py "none") []
                        (py "previous"))
    = (mkApp [SPACE; NEWLINE] (py "auto") (py "list") (py "none") []
             (py "previous"), [EmptyInput])
  /\ process_string (app_with " , /n" "auto" "list" "none" "" (py "previous"))
     = (app_with " , /n" "auto" "list" "none" "" (py "previous"), [NoItemsFound]).
Proof.
  split.
  - apply (process_string_refusals
             (mkApp [SPACE; NEWLINE] (py "auto") (py "list") (py "none") []
                    (py "previous"))).
    reflexivity.
  - apply (process_string_refusals
             (app_with " , /n" "auto" "list" "none" "" (py "previous")));
      reflexivity.
Defined.

(** C2.  With automatic detection and no format the output is the header
    alone: the detected separator splits the input and the body stays
    empty. *)
Theorem auto_without_format_shows_count_only (self : App) :
  let raw := input_text self in
  let items := clean_and_split_string self raw in
  separator_var self = py "auto" -> format_type self = py "none" ->
  items <> [] ->
  items = stripped_items
            (split_on (auto_detect_separator (cleaned raw)) (cleaned raw))
  /\ process_string self
     = (set_output_text self (item_count_header (count_actual_content items)), []).
Proof.
  intros raw items Hsep Hfmt Hitems. split.
  - subst items. unfold clean_and_split_string. option_is Hsep. reflexivity.
  - subst items raw. rewrite <- clean_and_split_strip in *.
    assert (Hin : strip (input_text self) <> []).
    { intros E. rewrite E in Hitems. apply Hitems. apply clean_and_split_nil. }
    unfold process_string.
    apply py_not_false in Hin. apply py_not_false in Hitems.
    rewrite Hin, Hitems. unfold format_with_separator_style.
    option_is Hsep. option_is Hfmt. reflexivity.
Qed.

Lemma auto_without_format_shows_count_only_witness :
  auto_detect_separator (cleaned (py "a,b,c")) = COMMA
  /\ clean_and_split_string (app_with "a,b,c" "auto" "none" "none" "" [])
       (py "a,b,c") = [py "a"; py "b"; py "c"]
  /\ process_string (app_with "a,b,c" "auto" "none" "none" "" [])
     = (app_with "a,b,c" "auto" "none" "none" ""
          (py "Item count: 3" ++ [NEWLINE; NEWLINE]), []).
Proof.
  destruct (auto_without_format_shows_count_only
              (app_with "a,b,c" "auto" "none" "none" "" []) eq_refl eq_refl)
    as [Hitems Hrun]; [discriminate|].
  split; [reflexivity | split; [reflexivity | rewrite Hrun; reflexivity]].
Defined.

(** The body that the claim words for [a,b,c] is not what is written:
    detection yields the comma and the items are [a], [b] and [c], but the
    output ends after the blank line. *)
Lemma auto_without_format_body_not_joined :
  let self := app_with "a,b,c" "auto" "none" "none" "" [] in
  let items := clean_and_split_string self (strip (input_text self)) in
  auto_detect_separator (cleaned (py "a,b,c")) = COMMA
  /\ items = [py "a"; py "b"; py "c"]
  /\ output_text (fst (process_string self))
     = py "Item count: 3" ++ [NEWLINE; NEWLINE]
  /\ output_text (fst (process_string self))
     <> py "Item count: 3" ++ [NEWLINE; NEWLINE] ++ join (py ", ") items.
Proof.
  cbv zeta. repeat split; try reflexivity. vm_compute. discriminate.
Qed.

(** C1.  With the dictionary format, the [user_defined] strategy and an
    empty prefix, [process_string] opens the box of [MissingPrefix] and
    then goes on: the output area, which showed [previous], receives the
    header and the items joined in the style of the separator. *)
Theorem missing_prefix_still_writes_output :
  process_string (app_with "foo bar" "space" "dict" "user_defined" "" (py "previous"))
  = (app_with "foo bar" "space" "dict" "user_defined" ""
       (py "Item count: 2" ++ [NEWLINE; NEWLINE] ++ py "foo bar"),
     [MissingPrefix])
  /\ process_string (app_with "foo bar" "auto" "dict" "user_defined" "  " (py "previous"))
     = (app_with "foo bar" "auto" "dict" "user_defined" "  "
          (py "Item count: 2" ++ [NEWLINE; NEWLINE]),
        [MissingPrefix]).
Proof. split; vm_compute; reflexivity. Qed.

(* ================================================================== *)
(** * Further facts: items, counting and quoting *)
(* ================================================================== *)

Section Items.

Lemma pieces_from_Forall (P : char -> Prop) (sep : char) (s : pystr) :
  Forall P s ->
  Forall P (fst (pieces_from sep s)) /\ Forall (Forall P) (snd (pieces_from sep s)).
Proof.
  induction 1 as [|c r Hc Hr [IHp IHps]]; simpl; [split; constructor|].
  destruct (pieces_from sep r) as [p ps]; simpl in *.
  destruct (N.eqb c sep); simpl; split; try constructor; auto.
Qed.

Lemma split_on_Forall (P : char -> Prop) (sep : char) (s : pystr) :
  Forall P s -> Forall (Forall P) (split_on sep s).
Proof.
  intros H. unfold split_on. destruct (pieces_from_Forall P sep s H) as [Hp Hps].
  destruct (pieces_from sep s). now constructor.
Qed.



Lemma strip_Forall (P : char -> Prop) (s : pystr) : Forall P s -> Forall P (strip s).
Proof. intros H. unfold strip. now apply rstrip_Forall, lstrip_Forall. Qed.

Lemma stripped_items_Forall (P : char -> Prop) (pieces : list pystr) :
  Forall (Forall P) pieces -> Forall (Forall P) (stripped_items pieces).
Proof.
  unfold stripped_items. induction 1 as [|p l Hp Hl IH]; simpl; [constructor|].
  destruct (py_not (strip p)); simpl; [exact IH|].
  constructor; [now apply strip_Forall | exact IH].
Qed.

Lemma words_Forall (P : char -> Prop) (s : pystr) :
  Forall P s -> Forall (Forall P) (split s).
Proof.
  intros H. unfold split.
  assert (Hw : Forall P (fst (words_from s))
               /\ Forall (Forall P) (snd (words_from s))).
  { induction H as [|c r Hc Hr [IHw IHws]]; simpl; [split; constructor|].
    destruct (words_from r) as [w ws]; simpl in *.
    destruct (isspace c); simpl; split; try constructor; auto.
    destruct w; simpl; [exact IHws | now constructor]. }
  destruct (words_from s) as [w ws]; simpl in Hw. destruct Hw as [Hw Hws].
  destruct w; simpl; [exact Hws | now constructor].
Qed.

(** Whatever the separator, every character of an item satisfies what
    every character of the cleaned text does. *)
Lemma clean_and_split_Forall (P : char -> Prop) (self : App) (raw : pystr) :
  Forall P (cleaned raw) -> Forall (Forall P) (clean_and_split_string self raw).
Proof.
  intros H. unfold clean_and_split_string.
  repeat match goal with
  | |- context [if ?b then _ else _] => destruct b
  end; apply stripped_items_Forall;
    (now apply split_on_Forall) || (now apply words_Forall).
Qed.


Lemma filter_nonblank_words (l : list pystr) :
  Forall is_word l -> filter (fun w => negb (py_not (strip w))) l = l.
Proof.
  induction 1 as [|w l [Hne Hw] Hl IH]; [reflexivity|].
  simpl. rewrite strip_no_whitespace by exact Hw.
  destruct w; [contradiction|]. simpl. now rewrite IH.
Qed.

(** *** Counting *)

Lemma count_actual_content_from (items : list pystr) (start : nat) :
  fold_left
    (fun content_count item =>
       let clean_item := sub_non_alnum item in
       let words := filter (fun word => negb (py_not (strip word))) (split clean_item) in
       content_count + List.length words)
    items start
  = start + list_sum (map (fun item => List.length (split (sub_non_alnum item))) items).
Proof.
  revert start; induction items as [|item items IH]; intros start; simpl.
  - lia.
  - rewrite IH. rewrite filter_nonblank_words by apply split_words. lia.
Qed.

Lemma count_actual_content_sum (items : list pystr) :
  count_actual_content items
  = list_sum (map (fun item => List.length (split (sub_non_alnum item))) items).
Proof. unfold count_actual_content. now rewrite count_actual_content_from. Qed.

Lemma alnum_not_space (c : char) : is_ascii_alnum c = true -> isspace c = false.
Proof.
  unfold is_ascii_alnum, isspace, in_range. intros H.
  assert (B : (48 <= c <= 122)%N).
  { repeat match type of H with
    | context [N.leb ?a ?b] => destruct (N.leb_spec a b); try lia
    end; discriminate. }
  repeat match goal with
  | |- context [N.leb ?a ?b] => destruct (N.leb_spec a b); try lia
  | |- context [N.eqb ?a ?b] => destruct (N.eqb_spec a b); try lia
  end; reflexivity.
Qed.

Lemma sub_non_alnum_no_whitespace (item : pystr) :
  no_whitespace item ->
  sub_non_alnum item = filter is_ascii_alnum item
  /\ no_whitespace (sub_non_alnum item).
Proof.
  unfold sub_non_alnum. induction item as [|c r IH]; intros H.
  - split; reflexivity.
  - apply no_whitespace_cons in H as [Hc Hr]. destruct (IH Hr) as [E Hn].
    simpl. rewrite Hc, orb_false_r. destruct (is_ascii_alnum c) eqn:A.
    + split; [now rewrite E|]. apply no_whitespace_cons. now split.
    + now split.
Qed.

Lemma words_of_item_without_space (item : pystr) :
  no_whitespace item ->
  List.length (split (sub_non_alnum item))
  = if existsb is_ascii_alnum item then 1 else 0.
Proof.
  intros H. destruct (sub_non_alnum_no_whitespace item H) as [E Hn].
  assert (Hex : existsb is_ascii_alnum item = negb (py_not (filter is_ascii_alnum item))).
  { clear. induction item as [|c r IH]; [reflexivity|]. simpl.
    destruct (is_ascii_alnum c); [reflexivity | exact IH]. }
  rewrite Hex, <- E. destruct (sub_non_alnum item) as [|c r] eqn:S; [reflexivity|].
  rewrite split_word; [reflexivity | discriminate | exact Hn].
Qed.

(** *** Quoting *)

Lemma count_app (c : char) (a b : pystr) : count c (a ++ b) = count c a + count c b.
Proof. unfold count. now rewrite filter_app, length_app. Qed.


End Items.

(* ================================================================== *)
(** * Further facts: the cleaned text is a fixed point of cleaning *)
(* ================================================================== *)

Section CleanedTwice.

Lemma well_spaced_weaken (s : pystr) : well_spaced true s = true -> well_spaced false s = true.
Proof.
  destruct s as [|c r]; [reflexivity|]. simpl.
  destruct (isspace c); [discriminate | auto].
Qed.

Lemma collapse_from_well_spaced (b : bool) (s : pystr) :
  well_spaced b (collapse_from b s) = true.
Proof.
  revert b; induction s as [|c r IH]; intros b; [reflexivity|].
  cbn [collapse_from]. destruct (isspace c) eqn:Hc.
  - destruct b; [apply IH|].
    cbn [well_spaced]. change (isspace SPACE) with true. cbn.
    apply IH.
  - cbn [well_spaced]. rewrite Hc. apply IH.
Qed.

Lemma collapse_from_fixed (b : bool) (s : pystr) :
  well_spaced b s = true -> collapse_from b s = s.
Proof.
  revert b; induction s as [|c r IH]; intros b H; [reflexivity|].
  cbn [well_spaced] in H. cbn [collapse_from]. destruct (isspace c) eqn:Hc.
  - apply andb_true_iff in H as [H Hr]. apply andb_true_iff in H as [Hb Hsp].
    destruct b; [discriminate|]. apply N.eqb_eq in Hsp. subst c.
    now rewrite (IH true Hr).
  - now rewrite (IH false H).
Qed.

Lemma lstrip_well_spaced (s : pystr) :
  well_spaced false s = true -> well_spaced false (lstrip s) = true.
Proof.
  induction s as [|c r IH]; intros H; [reflexivity|].
  simpl. destruct (isspace c) eqn:Hc; [|exact H].
  apply IH. cbn [well_spaced] in H. rewrite Hc in H.
  apply andb_true_iff in H as [_ Hr]. now apply well_spaced_weaken.
Qed.

Lemma rstrip_well_spaced (b : bool) (s : pystr) :
  well_spaced b s = true -> well_spaced b (rstrip s) = true.
Proof.
  revert b; induction s as [|c r IH]; intros b H; [reflexivity|].
  cbn [rstrip]. destruct (isspace c && py_not (rstrip r))%bool; [reflexivity|].
  cbn [well_spaced] in *. destruct (isspace c).
  - apply andb_true_iff in H as [H Hr]. rewrite H. now apply IH.
  - now apply IH.
Qed.

Lemma cleaned_well_spaced (s : pystr) : well_spaced false (cleaned s) = true.
Proof.
  unfold cleaned, strip, sub_whitespace.
  apply rstrip_well_spaced, lstrip_well_spaced, collapse_from_well_spaced.
Qed.

(** *** No marker is left, and none appears *)

Lemma has_marker_tail (c : char) (r : pystr) :
  has_marker (c :: r) = false -> has_marker r = false.
Proof.
  destruct r as [|d r]; [reflexivity|]. cbn [has_marker].
  intros H. now apply orb_false_iff in H as [_ H].
Qed.

Lemma has_marker_cons (c : char) (r : pystr) :
  has_marker r = false ->
  (N.eqb c SLASH && match r with d :: _ => N.eqb d LOWER_N | [] => false end)%bool = false ->
  has_marker (c :: r) = false.
Proof.
  destruct r as [|d r]; [reflexivity|]. cbn [has_marker].
  intros H1 H2. now rewrite H1, H2.
Qed.

Lemma has_marker_head (c : char) (r : pystr) :
  has_marker (c :: r) = false ->
  (N.eqb c SLASH && match r with d :: _ => N.eqb d LOWER_N | [] => false end)%bool = false.
Proof.
  destruct r as [|d r]; [now rewrite andb_false_r|]. cbn [has_marker].
  intros H. now apply orb_false_iff in H as [H _].
Qed.

Lemma sub_slash_n_marker_free (s : pystr) : has_marker (sub_slash_n s) = false.
Proof.
  assert (H : forall s,
             has_marker (sub_slash_n s) = false
             /\ forall c, has_marker (sub_slash_n (c :: s)) = false).
  { intros t. induction t as [|d r [IH1 IH2]].
    - split; [reflexivity | intros c; reflexivity].
    - split; [apply IH2|]. intros c.
      change (sub_slash_n (c :: d :: r))
        with (if (N.eqb c SLASH && N.eqb d LOWER_N)%bool
              then SPACE :: sub_slash_n r else c :: sub_slash_n (d :: r)).
      destruct (N.eqb c SLASH && N.eqb d LOWER_N)%bool eqn:E.
      + now rewrite has_marker_cons_other by discriminate.
      + apply has_marker_cons; [apply IH2|].
        destruct (N.eqb c SLASH) eqn:Ec; [|reflexivity]. simpl in E. simpl.
        destruct r as [|e r'].
        * simpl. exact E.
        * change (sub_slash_n (d :: e :: r'))
            with (if (N.eqb d SLASH && N.eqb e LOWER_N)%bool
                  then SPACE :: sub_slash_n r' else d :: sub_slash_n (e :: r')).
          destruct (N.eqb d SLASH && N.eqb e LOWER_N)%bool; [reflexivity | exact E]. }
  apply H.
Qed.

Lemma collapse_from_head (r : pystr) :
  match collapse_from false r with d :: _ => N.eqb d LOWER_N | [] => false end = true ->
  match r with d :: _ => N.eqb d LOWER_N | [] => false end = true.
Proof.
  destruct r as [|d r]; [discriminate|]. cbn [collapse_from].
  destruct (isspace d); [discriminate | auto].
Qed.

Lemma collapse_from_marker_free (b : bool) (s : pystr) :
  has_marker s = false -> has_marker (collapse_from b s) = false.
Proof.
  revert b; induction s as [|c r IH]; intros b H; [reflexivity|].
  pose proof (has_marker_tail c r H) as Hr.
  cbn [collapse_from]. destruct (isspace c) eqn:Hc.
  - destruct b; [now apply IH|].
    rewrite has_marker_cons_other by discriminate. now apply IH.
  - apply has_marker_cons; [now apply IH|].
    apply has_marker_head in H.
    destruct (N.eqb c SLASH); [|reflexivity]. simpl in *.
    destruct (match collapse_from false r with
              | [] => false
              | d :: _ => N.eqb d LOWER_N
              end) eqn:E; [|reflexivity].
    apply collapse_from_head in E. congruence.
Qed.

Lemma lstrip_marker_free (s : pystr) :
  has_marker s = false -> has_marker (lstrip s) = false.
Proof.
  induction s as [|c r IH]; intros H; [reflexivity|]. simpl.
  destruct (isspace c); [|exact H]. apply IH. now apply has_marker_tail in H.
Qed.

Lemma rstrip_head (r : pystr) :
  match rstrip r with d :: _ => N.eqb d LOWER_N | [] => false end = true ->
  match r with d :: _ => N.eqb d LOWER_N | [] => false end = true.
Proof.
  destruct r as [|d r]; [discriminate|]. cbn [rstrip].
  destruct (isspace d && py_not (rstrip r))%bool; [discriminate | auto].
Qed.

Lemma rstrip_marker_free (s : pystr) :
  has_marker s = false -> has_marker (rstrip s) = false.
Proof.
  induction s as [|c r IH]; intros H; [reflexivity|].
  cbn [rstrip]. destruct (isspace c && py_not (rstrip r))%bool; [reflexivity|].
  apply has_marker_cons; [apply IH; now apply has_marker_tail in H|].
  apply has_marker_head in H.
  destruct (N.eqb c SLASH); [|reflexivity]. simpl in *.
  destruct (match rstrip r with
            | [] => false
            | d :: _ => N.eqb d LOWER_N
            end) eqn:E; [|reflexivity].
  apply rstrip_head in E. congruence.
Qed.

Lemma cleaned_marker_free (s : pystr) : has_marker (cleaned s) = false.
Proof.
  unfold cleaned, strip, sub_whitespace.
  apply rstrip_marker_free, lstrip_marker_free, collapse_from_marker_free,
    sub_slash_n_marker_free.
Qed.

(** A text that is trimmed, single-spaced and free of the marker is its
    own cleaned text. *)
Lemma cleaned_fixed (s : pystr) :
  has_marker s = false -> well_spaced false s = true -> strip s = s ->
  cleaned s = s.
Proof.
  intros Hm Hw Hs. unfold cleaned, sub_whitespace.
  rewrite sub_slash_n_no_marker by exact Hm.
  rewrite collapse_from_fixed by exact Hw. exact Hs.
Qed.

Lemma cleaned_cleaned (s : pystr) : cleaned (cleaned s) = cleaned s.
Proof.
  apply cleaned_fixed.
  - apply cleaned_marker_free.
  - apply cleaned_well_spaced.
  - unfold cleaned. apply strip_idempotent.
Qed.

End CleanedTwice.

(* ================================================================== *)
(** * Further facts: what [process_string] reads and writes *)
(* ================================================================== *)

Section ProcessFacts.

(** An input with items is past both guards. *)
Lemma items_past_guards (self : App) :
  clean_and_split_string self (input_text self) <> [] ->
  py_not (strip (input_text self)) = false
  /\ py_not (clean_and_split_string self (strip (input_text self))) = false.
Proof.
  intros Hitems. rewrite clean_and_split_strip. split.
  - apply py_not_false. intros E. apply Hitems.
    rewrite <- clean_and_split_strip, E. apply clean_and_split_nil.
  - now apply py_not_false.
Qed.

Lemma set_output_text_same (self : App) : set_output_text self (output_text self) = self.
Proof. destruct self. reflexivity. Qed.

(** The result of [process_string] does not depend on what the output
    area shows: either the call writes the same output and opens the same
    boxes, or it refuses with the same box and leaves the output area. *)
Lemma process_string_output_irrelevant (self : App) (shown_before : pystr) :
  exists out boxes,
    (process_string self = (set_output_text self out, boxes)
     /\ process_string (set_output_text self shown_before)
        = (set_output_text self out, boxes))
    \/ (process_string self = (self, boxes)
        /\ process_string (set_output_text self shown_before)
           = (set_output_text self shown_before, boxes)).
Proof.
  unfold process_string, format_as_dict, dict_pairs, format_with_separator_style,
    clean_and_split_string.
  cbn [input_text separator_var format_type dict_key_type user_prefix
       set_output_text].
  repeat match goal with
  | |- context [if ?b then _ else _] => destruct b
  end;
  cbn [bind ret showwarning app fst snd];
  ((exists (@nil char); eexists; right; split; reflexivity)
   || (eexists; eexists; left; split; reflexivity)).
Qed.

(** Past the guards, the list and the tuple format write the literal. *)
Lemma bracket_facts_past_guards (self : App) :
  let items := clean_and_split_string self (input_text self) in
  let header := item_count_header (count_actual_content items) in
  items <> [] ->
  (format_type self = py "list" ->
     process_string self = (set_output_text self (header ++ format_as_list items), []))
  /\ (format_type self = py "tuple" ->
      process_string self = (set_output_text self (header ++ format_as_tuple items), [])).
Proof.
  intros items header Hitems.
  destruct (items_past_guards self Hitems) as [Hin Hit].
  split; intros Hfmt; unfold process_string; rewrite Hin, Hit;
    rewrite clean_and_split_strip; fold items; fold header;
    unfold format_with_separator_style; option_is Hfmt;
    rewrite !andb_false_r; reflexivity.
Qed.

(** Past the guards, no format and a manual separator write the items
    joined in the style of the separator. *)
Lemma no_format_joins_facts (self : App) :
  let items := clean_and_split_string self (input_text self) in
  let header := item_count_header (count_actual_content items) in
  format_type self = py "none" -> items <> [] ->
  (separator_var self = py "space" ->
     process_string self = (set_output_text self (header ++ join (py " ") items), []))
  /\ (separator_var self = py "comma" ->
      process_string self = (set_output_text self (header ++ join (py ", ") items), []))
  /\ (separator_var self = py "newline" ->
      process_string self = (set_output_text self (header ++ join [NEWLINE] items), [])).
Proof.
  intros items header Hfmt Hitems.
  destruct (items_past_guards self Hitems) as [Hin Hit].
  repeat split; intros Hsep; unfold process_string; rewrite Hin, Hit;
    rewrite clean_and_split_strip; fold items; fold header;
    unfold format_with_separator_style; option_is Hsep; option_is Hfmt;
    reflexivity.
Qed.

End ProcessFacts.

(* ================================================================== *)
(** * Further properties of the code *)
(* ================================================================== *)

(** ** Tokenisation *)



(** X2.  Cleaning is idempotent: the cleaned text holds no marker, no run
    of whitespace and no whitespace at its ends, so cleaning it again
    changes nothing, and the items of the cleaned text are the items of
    the text. *)
Theorem cleaning_is_idempotent (self : App) (raw : pystr) :
  cleaned (cleaned raw) = cleaned raw
  /\ has_marker (cleaned raw) = false
  /\ well_spaced false (cleaned raw) = true
  /\ strip (cleaned raw) = cleaned raw
  /\ clean_and_split_string self (cleaned raw) = clean_and_split_string self raw.
Proof.
  repeat split.
  - apply cleaned_cleaned.
  - apply cleaned_marker_free.
  - apply cleaned_well_spaced.
  - unfold cleaned. apply strip_idempotent.
  - unfold clean_and_split_string. now rewrite cleaned_cleaned.
Qed.

(** ** Content counting *)

(** X3.  The content count is the sum, over the items, of the number of
    words left once every character that is neither an ASCII letter, a
    digit nor whitespace is removed; it is therefore additive over the
    concatenation of item sequences and zero for no items. *)
Theorem count_actual_content_additive (items items' : list pystr) :
  count_actual_content (items ++ items')
  = count_actual_content items + count_actual_content items'
  /\ count_actual_content items
     = list_sum (map (fun item => List.length (split (sub_non_alnum item))) items)
  /\ count_actual_content [] = 0.
Proof.
  split; [|split].
  - rewrite !count_actual_content_sum, map_app, list_sum_app. reflexivity.
  - apply count_actual_content_sum.
  - reflexivity.
Qed.

(** X4.  For items without whitespace, as the manual separators produce
    them, an item counts for one when it holds a letter or a digit and for
    nothing otherwise: the content count is the number of items with a
    letter or a digit, and never more than the number of items. *)
Theorem count_of_items_without_whitespace (items : list pystr) :
  Forall no_whitespace items ->
  count_actual_content items
  = List.length (filter (existsb is_ascii_alnum) items)
  /\ count_actual_content items <= List.length items.
Proof.
  intros H.
  assert (E : count_actual_content items
              = List.length (filter (existsb is_ascii_alnum) items)).
  { rewrite count_actual_content_sum.
    induction H as [|item l Hitem Hl IH]; [reflexivity|].
    simpl. rewrite IH, words_of_item_without_space by exact Hitem.
    destruct (existsb is_ascii_alnum item); reflexivity. }
  split; [exact E|]. rewrite E. apply filter_length_le.
Qed.

Lemma count_of_items_without_whitespace_witness :
  count_actual_content [py "a,b"; py "("; py "x1"; py "--"] = 2.
Proof.
  apply (count_of_items_without_whitespace [py "a,b"; py "("; py "x1"; py "--"]).
  repeat constructor.
Defined.

(** ** Formatting *)


(** ** The main processing method, format by format *)

(** X6.  With no format and a manual separator the output is the header
    followed by the items joined by a space, by a comma and a space, or
    by a newline, and no box is opened. *)
Theorem no_format_joins_in_separator_style (self : App) :
  let items := clean_and_split_string self (input_text self) in
  let header := item_count_header (count_actual_content items) in
  format_type self = py "none" -> items <> [] ->
  (separator_var self = py "space" ->
     process_string self = (set_output_text self (header ++ join (py " ") items), []))
  /\ (separator_var self = py "comma" ->
      process_string self = (set_output_text self (header ++ join (py ", ") items), []))
  /\ (separator_var self = py "newline" ->
      process_string self = (set_output_text self (header ++ join [NEWLINE] items), [])).
Proof.
  intros items header Hfmt Hitems.
  destruct (items_past_guards self Hitems) as [Hin Hit].
  repeat split; intros Hsep; unfold process_string; rewrite Hin, Hit;
    rewrite clean_and_split_strip; fold items; fold header;
    unfold format_with_separator_style; option_is Hsep; option_is Hfmt;
    reflexivity.
Qed.

Lemma no_format_joins_in_separator_style_witness :
  process_string (app_with "x  y" "comma" "none" "none" "" [])
  = (app_with "x  y" "comma" "none" "none" ""
       (py "Item count: 2" ++ [NEWLINE; NEWLINE] ++ py "x, y"), []).
Proof.
  apply (no_format_joins_in_separator_style
           (app_with "x  y" "comma" "none" "none" "" []));
    [reflexivity | discriminate | reflexivity].
Defined.

(** X7.  The list and the tuple format ignore the separator choice when
    they write: whatever the separator variable holds, the output is the
    header followed by the bracketed, quoted items, and no box is
    opened. *)
Theorem bracket_formats_ignore_separator_style (self : App) :
  let items := clean_and_split_string self (input_text self) in
  let header := item_count_header (count_actual_content items) in
  items <> [] ->
  (format_type self = py "list" ->
     process_string self = (set_output_text self (header ++ format_as_list items), []))
  /\ (format_type self = py "tuple" ->
      process_string self = (set_output_text self (header ++ format_as_tuple items), [])).
Proof.
  intros items header Hitems.
  destruct (items_past_guards self Hitems) as [Hin Hit].
  split; intros Hfmt; unfold process_string; rewrite Hin, Hit;
    rewrite clean_and_split_strip; fold items; fold header;
    unfold format_with_separator_style; option_is Hfmt;
    rewrite !andb_false_r; reflexivity.
Qed.

Lemma bracket_formats_ignore_separator_style_witness :
  process_string (app_with "x  y" "newline" "tuple" "none" "" [])
  = (app_with "x  y" "newline" "tuple" "none" ""
       (py "Item count: 2" ++ [NEWLINE; NEWLINE; 40; DQUOTE; 120; DQUOTE; 44; 32;
                                DQUOTE; 121; DQUOTE; 41]%N), []).
Proof.
  apply (bracket_formats_ignore_separator_style
           (app_with "x  y" "newline" "tuple" "none" "" []));
    [discriminate | reflexivity].
Defined.

(** X8.  With the dictionary format and a key strategy that builds
    entries the output is the header followed by the entries between
    curly brackets, separated by a comma and a space, whatever the
    separator; no box is opened. *)
Theorem dictionary_format_writes_entries (self : App) :
  let items := clean_and_split_string self (input_text self) in
  let header := item_count_header (count_actual_content items) in
  format_type self = py "dict" -> key_strategy_applies self -> items <> [] ->
  exists pairs,
    dict_pairs self items = (Some pairs, [])
    /\ List.length pairs = List.length items
    /\ process_string self
       = (set_output_text self
            (header ++ py "{" ++ join (py ", ") (map dict_entry pairs) ++ py "}"),
          []).
Proof.
  intros items header Hfmt Hkey Hitems.
  destruct (items_past_guards self Hitems) as [Hin Hit].
  assert (Hpairs : exists pairs,
             dict_pairs self items = (Some pairs, [])
             /\ List.length pairs = List.length items).
  { unfold dict_pairs.
    destruct Hkey as [E | [E | [E | [E Hprefix]]]]; option_is E;
      try (apply py_not_false in Hprefix; rewrite Hprefix);
      eexists; (split; [reflexivity|]);
      rewrite length_map; unfold enumerate;
      rewrite ?enumerate_from_length; reflexivity. }
  destruct Hpairs as (pairs & Hpairs & Hlen). exists pairs.
  split; [exact Hpairs | split; [exact Hlen|]].
  unfold process_string. rewrite Hin, Hit, clean_and_split_strip.
  fold items. fold header.
  unfold format_with_separator_style, format_as_dict. option_is Hfmt.
  rewrite !andb_false_r. rewrite Hpairs. reflexivity.
Qed.

Lemma dictionary_format_writes_entries_witness :
  exists pairs,
    dict_pairs (app_with "x y" "comma" "dict" "index" "" []) [py "x"; py "y"]
      = (Some pairs, [])
    /\ List.length pairs = 2
    /\ process_string (app_with "x y" "comma" "dict" "index" "" [])
       = (app_with "x y" "comma" "dict" "index" ""
            (item_count_header 2 ++ py "{"
             ++ join (py ", ") (map dict_entry pairs) ++ py "}"), []).
Proof.
  apply (dictionary_format_writes_entries
           (app_with "x y" "comma" "dict" "index" "" []));
    [reflexivity | left; reflexivity | discriminate].
Defined.

(** X9.  The dictionary format with the key strategy [none] writes what
    no format writes: for the same input, separator and displayed output
    the two calls return the same output and open the same boxes. *)
Theorem dictionary_without_keys_is_no_format (self self' : App) :
  input_text self' = input_text self ->
  separator_var self' = separator_var self ->
  output_text self' = output_text self ->
  format_type self = py "dict" -> dict_key_type self = py "none" ->
  format_type self' = py "none" ->
  output_text (fst (process_string self')) = output_text (fst (process_string self))
  /\ snd (process_string self') = snd (process_string self).
Proof.
  intros Hinput Hsep Hout Hfmt Hkey Hfmt'.
  unfold process_string, format_as_dict, dict_pairs, format_with_separator_style,
    clean_and_split_string.
  rewrite Hinput, Hsep. option_is Hfmt. option_is Hfmt'. option_is Hkey.
  rewrite !andb_false_r, !andb_true_r.
  repeat match goal with
  | |- context [if ?b then _ else _] => destruct b
  end; cbn; auto.
Qed.

Lemma dictionary_without_keys_is_no_format_witness :
  output_text (fst (process_string (app_with "x y" "comma" "none" "none" "" [])))
  = output_text (fst (process_string (app_with "x y" "comma" "dict" "none" "" []))).
Proof.
  apply (dictionary_without_keys_is_no_format
           (app_with "x y" "comma" "dict" "none" "" [])
           (app_with "x y" "comma" "none" "none" "" []));
    reflexivity.
Defined.

(** ** What a call changes *)

(** X10.  [process_string] changes nothing but the output area, and it
    opens at most one box: none, or the box of one of the three
    refusals. *)
Theorem process_string_frame (self : App) :
  exists out boxes,
    process_string self = (set_output_text self out, boxes)
    /\ (boxes = [] \/ boxes = [EmptyInput] \/ boxes = [NoItemsFound]
        \/ boxes = [MissingPrefix])
    /\ input_text (fst (process_string self)) = input_text self
    /\ separator_var (fst (process_string self)) = separator_var self
    /\ format_type (fst (process_string self)) = format_type self
    /\ dict_key_type (fst (process_string self)) = dict_key_type self
    /\ user_prefix (fst (process_string self)) = user_prefix self.
Proof.
  assert (H : exists out boxes,
             process_string self = (set_output_text self out, boxes)
             /\ (boxes = [] \/ boxes = [EmptyInput] \/ boxes = [NoItemsFound]
                 \/ boxes = [MissingPrefix])).
  { destruct (strip (input_text self)) as [|c r] eqn:Hin.
    { exists (output_text self), [EmptyInput].
      rewrite set_output_text_same, (process_string_empty_input self Hin). auto. }
    destruct (clean_and_split_string self (strip (input_text self)))
      as [|item l] eqn:Hitems.
    { exists (output_text self), [NoItemsFound].
      rewrite set_output_text_same, process_string_no_items; auto.
      rewrite Hin. discriminate. }
    destruct (process_string_writes self) as (body & boxes & Hrun & Hboxes).
    - rewrite Hin. discriminate.
    - rewrite Hitems. discriminate.
    - eexists. exists boxes. split; [exact Hrun|]. destruct Hboxes; auto. }
  destruct H as (out & boxes & Hrun & Hboxes). exists out, boxes.
  rewrite Hrun. repeat split; assumption.
Qed.

(** X11.  Formatting twice in a row gives what formatting once gives: the
    result does not depend on the output that is displayed, so a second
    call returns the same state and opens the same boxes. *)
Theorem process_string_idempotent (self : App) (shown_before : pystr) :
  process_string (fst (process_string self)) = process_string self
  /\ snd (process_string (set_output_text self shown_before))
     = snd (process_string self).
Proof.
  split.
  - destruct (process_string_output_irrelevant self []) as (out & boxes & [[H _] | [H _]]).
    + destruct (process_string_output_irrelevant self out)
        as (out' & boxes' & [[H1 H2] | [H1 H2]]).
      * rewrite H. cbn [fst]. rewrite H2. rewrite <- H1. exact H.
      * rewrite H. cbn [fst]. rewrite H2.
        rewrite H in H1. injection H1 as E1 E2. now rewrite E2.
    + rewrite H. cbn [fst]. exact H.
  - destruct (process_string_output_irrelevant self shown_before)
      as (out & boxes & [[H1 H2] | [H1 H2]]); now rewrite H1, H2.
Qed.

(* ================================================================== *)
(** * Further facts: lines, and the ends of a text *)
(* ================================================================== *)

Section Lines.

Lemma pieces_from_app_without_sep (sep : char) (a r : pystr) :
  Forall (fun c => c <> sep) a ->
  pieces_from sep (a ++ r)
  = (a ++ fst (pieces_from sep r), snd (pieces_from sep r)).
Proof.
  induction 1 as [|c a Hc Ha IH]; simpl.
  - now destruct (pieces_from sep r).
  - rewrite IH. apply N.eqb_neq in Hc. now rewrite Hc.
Qed.

Lemma split_on_one_piece (sep : char) (a : pystr) :
  Forall (fun c => c <> sep) a -> split_on sep a = [a].
Proof.
  intros H. unfold split_on. rewrite <- (app_nil_r a) at 1.
  rewrite pieces_from_app_without_sep by exact H. simpl. now rewrite app_nil_r.
Qed.

Lemma split_on_first_piece (sep : char) (a r : pystr) :
  Forall (fun c => c <> sep) a ->
  split_on sep (a ++ sep :: r) = a :: split_on sep r.
Proof.
  intros H. unfold split_on. rewrite pieces_from_app_without_sep by exact H.
  simpl. destruct (pieces_from sep r) as [p ps]. rewrite N.eqb_refl. simpl.
  now rewrite app_nil_r.
Qed.

Lemma split_on_join (sep : char) (items : list pystr) :
  items <> [] -> Forall (Forall (fun c => c <> sep)) items ->
  split_on sep (join [sep] items) = items.
Proof.
  intros Hne H. induction H as [|x l Hx Hl IH]; [contradiction|].
  destruct l as [|y l].
  - simpl. now apply split_on_one_piece.
  - rewrite join_cons2.
    change (x ++ [sep] ++ join [sep] (y :: l)) with (x ++ sep :: join [sep] (y :: l)).
    rewrite split_on_first_piece by exact Hx. rewrite IH; [reflexivity | discriminate].
Qed.

Lemma join_Forall (P : char -> Prop) (sep : pystr) (l : list pystr) :
  Forall P sep -> Forall (Forall P) l -> Forall P (join sep l).
Proof.
  intros Hsep. induction 1 as [|x l Hx Hl IH]; [constructor|].
  destruct l as [|y l]; [exact Hx|].
  rewrite join_cons2. apply Forall_app. split; [exact Hx|].
  apply Forall_app. split; [exact Hsep | exact IH].
Qed.

(** *** The right end *)

Lemma rstrip_app_kept (a b : pystr) : rstrip b <> [] -> rstrip (a ++ b) = a ++ rstrip b.
Proof.
  intros Hb. induction a as [|c a IH]; [reflexivity|].
  change ((c :: a) ++ b) with (c :: (a ++ b)).
  change ((c :: a) ++ rstrip b) with (c :: (a ++ rstrip b)).
  cbn [rstrip]. rewrite IH.
  destruct (a ++ rstrip b) eqn:E.
  - apply app_eq_nil in E as [_ E]. contradiction.
  - now rewrite andb_false_r.
Qed.

Lemma rstrip_app_dropped (a b : pystr) : rstrip b = [] -> rstrip (a ++ b) = rstrip a.
Proof.
  intros Hb. apply rstrip_app_spaces. now apply all_space_of_rstrip_nil.
Qed.

Lemma stripped_items_ends (pieces : list pystr) :
  Forall (fun item => item <> [] /\ lstrip item = item /\ rstrip item = item)
         (stripped_items pieces).
Proof.
  unfold stripped_items. induction pieces as [|p l IH]; simpl; [constructor|].
  destruct (py_not (strip p)) eqn:E; simpl; [exact IH|].
  constructor; [|exact IH]. repeat split.
  - now apply py_not_false.
  - unfold strip. apply lstrip_rstrip_lstrip.
  - unfold strip. apply rstrip_idempotent.
Qed.

Lemma clean_and_split_ends (self : App) (raw : pystr) :
  Forall (fun item => item <> [] /\ lstrip item = item /\ rstrip item = item)
         (clean_and_split_string self raw).
Proof.
  unfold clean_and_split_string.
  repeat match goal with
  | |- context [if ?b then _ else _] => destruct b
  end; apply stripped_items_ends.
Qed.

Lemma rstrip_join (sep : pystr) (items : list pystr) :
  Forall (fun item => item <> [] /\ lstrip item = item /\ rstrip item = item) items ->
  rstrip (join sep items) = join sep items
  /\ (items <> [] -> join sep items <> []).
Proof.
  induction 1 as [|x l (Hne & _ & Hx) Hl [IH1 IH2]];
    [split; [reflexivity | intros E; now contradiction E]|].
  destruct l as [|y l]; [split; [exact Hx | intros _; exact Hne]|].
  rewrite join_cons2. split.
  - assert (Hj : rstrip (join sep (y :: l)) <> [])
      by (rewrite IH1; apply IH2; discriminate).
    assert (Hs : rstrip (sep ++ join sep (y :: l)) <> []).
    { rewrite rstrip_app_kept by exact Hj. rewrite IH1. intros E.
      apply app_eq_nil in E as [_ E]. revert E. apply IH2. discriminate. }
    rewrite rstrip_app_kept by exact Hs. rewrite rstrip_app_kept by exact Hj.
    do 2 f_equal. exact IH1.
  - intros _ E. apply app_eq_nil in E as [E _]. contradiction.
Qed.

Lemma lstrip_join (sep : pystr) (items : list pystr) :
  Forall (fun item => item <> [] /\ lstrip item = item /\ rstrip item = item) items ->
  lstrip (join sep items) = join sep items.
Proof.
  intros H. destruct H as [|x l (Hne & Hx & _) Hl]; [reflexivity|].
  assert (Hhead : forall r, lstrip (x ++ r) = x ++ r).
  { intros r. destruct x as [|c x]; [contradiction|].
    simpl in *. destruct (isspace c); [|reflexivity].
    exfalso. assert (L : List.length (lstrip x) <= List.length x).
    { clear. induction x as [|d x IH]; simpl; [lia|].
      destruct (isspace d); simpl; lia. }
    rewrite Hx in L. simpl in L. lia. }
  destruct l as [|y l]; [exact Hx|]. rewrite join_cons2. apply Hhead.
Qed.

(** *** The header *)

Lemma digit_not_newline (c : char) : is_digit c -> c <> NEWLINE.
Proof. intros H ->. discriminate. Qed.

Lemma digit_not_space (c : char) : is_digit c -> isspace c = false.
Proof.
  unfold is_digit. intros H. apply alnum_not_space.
  unfold is_ascii_alnum. rewrite H. now rewrite !orb_true_r.
Qed.

Lemma count_line_without_newline (n : nat) :
  Forall (fun c => c <> NEWLINE) (py "Item count: " ++ str_of_nat n).
Proof.
  apply Forall_app. split.
  - repeat constructor; discriminate.
  - eapply Forall_impl; [apply digit_not_newline | apply str_of_nat_digits].
Qed.

Lemma rstrip_count_line (n : nat) :
  rstrip (py "Item count: " ++ str_of_nat n) = py "Item count: " ++ str_of_nat n.
Proof.
  destruct (str_of_nat_digits n) as [Hne Hd].
  assert (E : rstrip (str_of_nat n) = str_of_nat n).
  { apply rstrip_no_whitespace. unfold no_whitespace. apply forallb_forall.
    rewrite Forall_forall in Hd. intros c Hc.
    now rewrite (digit_not_space c (Hd c Hc)). }
  rewrite rstrip_app_kept; rewrite E; [reflexivity | exact Hne].
Qed.

(** The trimmed text of an output area that shows the header and a
    body. *)
Lemma strip_header_and_body (n : nat) (body : pystr) :
  strip ((item_count_header n ++ body) ++ [NEWLINE])
  = match rstrip body with
    | [] => py "Item count: " ++ str_of_nat n
    | _ :: _ => (py "Item count: " ++ str_of_nat n) ++ NEWLINE :: NEWLINE :: rstrip body
    end.
Proof.
  unfold strip, item_count_header.
  change (lstrip (((py "Item count: " ++ str_of_nat n ++ [NEWLINE; NEWLINE]) ++ body)
                  ++ [NEWLINE]))
    with (((py "Item count: " ++ str_of_nat n ++ [NEWLINE; NEWLINE]) ++ body)
          ++ [NEWLINE]).
  rewrite rstrip_app_spaces by reflexivity.
  replace ((py "Item count: " ++ str_of_nat n ++ [NEWLINE; NEWLINE]) ++ body)
    with ((py "Item count: " ++ str_of_nat n) ++ NEWLINE :: NEWLINE :: body)
    by (rewrite <- !app_assoc; reflexivity).
  destruct (rstrip body) as [|c r] eqn:E.
  - rewrite rstrip_app_dropped; [apply rstrip_count_line|].
    cbn [rstrip]. now rewrite E.
  - rewrite rstrip_app_kept.
    + cbn [rstrip]. now rewrite E.
    + cbn [rstrip]. rewrite E. simpl. discriminate.
Qed.

Lemma output_to_copy_header_and_body (n : nat) (body : pystr) :
  output_to_copy (strip ((item_count_header n ++ body) ++ [NEWLINE]))
  = join [NEWLINE]
      (filter (fun line => negb (py_not (strip line)))
              (split_on NEWLINE (rstrip body))).
Proof.
  rewrite strip_header_and_body. unfold output_to_copy.
  destruct (rstrip body) as [|c r] eqn:E.
  - rewrite split_on_one_piece by apply count_line_without_newline. reflexivity.
  - rewrite split_on_first_piece by apply count_line_without_newline.
    rewrite (split_on_first_piece NEWLINE [] (c :: r) (Forall_nil _)
             : split_on NEWLINE (NEWLINE :: c :: r) = [] :: split_on NEWLINE (c :: r)).
    reflexivity.
Qed.

Lemma strip_header_and_body_not_empty (n : nat) (body : pystr) :
  py_not (strip ((item_count_header n ++ body) ++ [NEWLINE])) = false.
Proof. rewrite strip_header_and_body. now destruct (rstrip body). Qed.

End Lines.

Section CopyFacts.

(** A body of one line that is trimmed is copied as it is. *)
Lemma copied_lines_of_one_line (body : pystr) :
  body <> [] -> strip body = body -> rstrip body = body ->
  Forall (fun c => c <> NEWLINE) body ->
  join [NEWLINE]
    (filter (fun line => negb (py_not (strip line)))
            (split_on NEWLINE (rstrip body))) = body.
Proof.
  intros Hne Hs Hr Hnl. rewrite Hr, split_on_one_piece by exact Hnl.
  simpl. rewrite Hs. destruct body; [contradiction | reflexivity].
Qed.

Lemma items_without_newline (self : App) (raw : pystr) :
  Forall (Forall (fun c => c <> NEWLINE)) (clean_and_split_string self raw).
Proof.
  apply clean_and_split_Forall.
  eapply Forall_impl; [|apply cleaned_only_spaces].
  intros c Hc ->. specialize (Hc eq_refl). discriminate.
Qed.

Lemma format_items_without_newline (items : list pystr) :
  Forall (Forall (fun c => c <> NEWLINE)) items ->
  Forall (fun c => c <> NEWLINE) (format_items_as_string items).
Proof.
  intros H. unfold format_items_as_string. apply join_Forall.
  - repeat constructor; discriminate.
  - induction H as [|x l Hx Hl IH]; simpl; constructor; [|exact IH].
    unfold quoted. apply Forall_app. split; [repeat constructor; discriminate|].
    apply Forall_app. split; [exact Hx | repeat constructor; discriminate].
Qed.

(** A literal between two brackets is one trimmed line. *)
Lemma bracketed_one_line (opening closing : char) (inner : pystr) :
  isspace opening = false -> isspace closing = false ->
  opening <> NEWLINE -> closing <> NEWLINE ->
  Forall (fun c => c <> NEWLINE) inner ->
  let body := [opening] ++ inner ++ [closing] in
  body <> [] /\ strip body = body /\ rstrip body = body
  /\ Forall (fun c => c <> NEWLINE) body.
Proof.
  intros Ho Hc Hon Hcn Hinner body.
  assert (Hr : rstrip body = body).
  { subst body. assert (E : rstrip [closing] = [closing]) by (simpl; now rewrite Hc).
    rewrite rstrip_app_kept.
    - rewrite rstrip_app_kept; rewrite E; [reflexivity | discriminate].
    - rewrite rstrip_app_kept; rewrite E; [|discriminate].
      intros F. apply app_eq_nil in F as [_ F]. discriminate. }
  repeat split.
  - discriminate.
  - unfold strip. subst body. simpl lstrip. rewrite Ho. exact Hr.
  - exact Hr.
  - subst body. apply Forall_app. split; [now repeat constructor|].
    apply Forall_app. split; [exact Hinner | now repeat constructor].
Qed.

Lemma press_format_result (w : Window) (a : App) (boxes : list Dialog) :
  process_string (app w) = (a, boxes) ->
  press_format w = (with_app w a, map Shown boxes).
Proof. intros H. unfold press_format. now rewrite H. Qed.

Lemma copy_of_header_and_body (w : Window) (n : nat) (body : pystr) :
  output_text (app w) = item_count_header n ++ body ->
  copy_to_clipboard w
  = (set_clipboard w
       (join [NEWLINE]
          (filter (fun line => negb (py_not (strip line)))
                  (split_on NEWLINE (rstrip body)))),
     [ShowInfo (py "Success") (py "Output copied to clipboard!")]).
Proof.
  intros H. unfold copy_to_clipboard, get_output_text. rewrite H.
  rewrite strip_header_and_body_not_empty, output_to_copy_header_and_body.
  reflexivity.
Qed.

End CopyFacts.

(** ** Copying the output *)

(** X12.  When the output area shows a header followed by a body,
    [copy_to_clipboard] puts on the clipboard the lines of the body that
    are not blank, joined by newlines, without the header, and reports
    success. *)
Theorem copy_drops_the_header (w : Window) (n : nat) (body : pystr) :
  output_text (app w) = item_count_header n ++ body ->
  copy_to_clipboard w
  = (set_clipboard w
       (join [NEWLINE]
          (filter (fun line => negb (py_not (strip line)))
                  (split_on NEWLINE (rstrip body)))),
     [ShowInfo (py "Success") (py "Output copied to clipboard!")]).
Proof.
  intros H. unfold copy_to_clipboard, get_output_text. rewrite H.
  rewrite strip_header_and_body_not_empty, output_to_copy_header_and_body.
  reflexivity.
Qed.

Lemma copy_drops_the_header_witness :
  clipboard
    (fst (copy_to_clipboard
            (mkWindow
               (app_with "" "auto" "none" "none" ""
                  (item_count_header 7 ++ [97; NEWLINE; 32; NEWLINE; 98; NEWLINE]%N))
               (py "red") [])))
  = [97; NEWLINE; 98]%N.
Proof.
  rewrite (copy_drops_the_header
             (mkWindow
                (app_with "" "auto" "none" "none" ""
                   (item_count_header 7 ++ [97; NEWLINE; 32; NEWLINE; 98; NEWLINE]%N))
                (py "red") [])
             7 [97; NEWLINE; 32; NEWLINE; 98; NEWLINE]%N eq_refl).
  reflexivity.
Defined.

(** X13.  Formatting as a list or as a tuple and then copying puts the
    literal on the clipboard, as it is written after the header. *)
Theorem copy_after_bracket_format (w : Window) :
  let items := clean_and_split_string (app w) (input_text (app w)) in
  let formatted := fst (press_format w) in
  items <> [] ->
  (format_type (app w) = py "list" ->
     snd (press_format w) = []
     /\ copy_to_clipboard formatted
        = (set_clipboard formatted (format_as_list items),
           [ShowInfo (py "Success") (py "Output copied to clipboard!")]))
  /\ (format_type (app w) = py "tuple" ->
      snd (press_format w) = []
      /\ copy_to_clipboard formatted
         = (set_clipboard formatted (format_as_tuple items),
            [ShowInfo (py "Success") (py "Output copied to clipboard!")])).
Proof.
  intros items formatted Hitems.
  pose proof (format_items_without_newline items
                (items_without_newline (app w) (input_text (app w)))) as Hnl.
  destruct (bracket_facts_past_guards (app w) Hitems) as [Hlist Htuple].
  split; intros Hfmt; subst formatted.
  - rewrite (press_format_result w _ _ (Hlist Hfmt)). split; [reflexivity|].
    cbn [fst]. erewrite copy_of_header_and_body by reflexivity.
    destruct (bracketed_one_line 91%N 93%N (format_items_as_string items))
      as (Hne & Hs & Hr & Hb); try reflexivity; try discriminate; try exact Hnl.
    unfold format_as_list. change (py "[") with [91%N]. change (py "]") with [93%N].
    now rewrite copied_lines_of_one_line.
  - rewrite (press_format_result w _ _ (Htuple Hfmt)). split; [reflexivity|].
    cbn [fst]. erewrite copy_of_header_and_body by reflexivity.
    destruct (bracketed_one_line 40%N 41%N (format_items_as_string items))
      as (Hne & Hs & Hr & Hb); try reflexivity; try discriminate; try exact Hnl.
    unfold format_as_tuple. change (py "(") with [40%N]. change (py ")") with [41%N].
    now rewrite copied_lines_of_one_line.
Qed.

Lemma copy_after_bracket_format_witness :
  clipboard
    (fst (copy_to_clipboard
            (fst (press_format
                    (mkWindow (app_with " x, y " "comma" "list" "none" "" [])
                              (py "red") (py "old"))))))
  = [91; DQUOTE; 120; 44; DQUOTE; 44; 32; DQUOTE; 121; DQUOTE; 93]%N.
Proof.
  destruct (copy_after_bracket_format
              (mkWindow (app_with " x, y " "comma" "list" "none" "" [])
                        (py "red") (py "old"))) as [Hlist _]; [discriminate|].
  destruct (Hlist eq_refl) as [_ Hcopy]. rewrite Hcopy. reflexivity.
Defined.

(** X14.  Formatting with no format and a manual separator and then
    copying puts the joined items on the clipboard: the text written
    after the header, for each of the three styles. *)
Theorem copy_after_separator_style (w : Window) :
  let items := clean_and_split_string (app w) (input_text (app w)) in
  let formatted := fst (press_format w) in
  format_type (app w) = py "none" -> items <> [] ->
  (separator_var (app w) = py "space" ->
     clipboard (fst (copy_to_clipboard formatted)) = join (py " ") items)
  /\ (separator_var (app w) = py "comma" ->
      clipboard (fst (copy_to_clipboard formatted)) = join (py ", ") items)
  /\ (separator_var (app w) = py "newline" ->
      clipboard (fst (copy_to_clipboard formatted)) = join [NEWLINE] items).
Proof.
  intros items formatted Hfmt Hitems.
  pose proof (clean_and_split_ends (app w) (input_text (app w))) as Hends.
  pose proof (items_without_newline (app w) (input_text (app w))) as Hnl.
  pose proof (clean_and_split_trimmed (app w) (input_text (app w))) as Htrim.
  fold items in Hends, Hnl, Htrim.
  destruct (no_format_joins_facts (app w) Hfmt Hitems) as (Hspace & Hcomma & Hnewline).
  assert (Hline : forall sep, Forall (fun c => c <> NEWLINE) sep ->
            join [NEWLINE]
              (filter (fun line => negb (py_not (strip line)))
                      (split_on NEWLINE (rstrip (join sep items))))
            = join sep items).
  { intros sep Hsep. destruct (rstrip_join sep items Hends) as [Hr Hne].
    apply copied_lines_of_one_line.
    - now apply Hne.
    - unfold strip. now rewrite (lstrip_join sep items Hends).
    - exact Hr.
    - now apply join_Forall. }
  subst items.
  repeat split; intros Hsep; subst formatted.
  - rewrite (press_format_result w _ _ (Hspace Hsep)). cbn [fst].
    erewrite copy_of_header_and_body by reflexivity. cbn [fst clipboard set_clipboard].
    apply Hline. repeat constructor; discriminate.
  - rewrite (press_format_result w _ _ (Hcomma Hsep)). cbn [fst].
    erewrite copy_of_header_and_body by reflexivity. cbn [fst clipboard set_clipboard].
    apply Hline. repeat constructor; discriminate.
  - rewrite (press_format_result w _ _ (Hnewline Hsep)). cbn [fst].
    erewrite copy_of_header_and_body by reflexivity. cbn [fst clipboard set_clipboard].
    destruct (rstrip_join [NEWLINE] _ Hends) as [Hr _]. rewrite Hr.
    rewrite split_on_join by assumption. f_equal.
    clear - Htrim. induction Htrim as [|x l [Hne Hx] Hl IH]; [reflexivity|].
    simpl. rewrite Hx. destruct x; [contradiction|]. simpl. now rewrite IH.
Qed.

Lemma copy_after_separator_style_witness :
  clipboard
    (fst (copy_to_clipboard
            (fst (press_format
                    (mkWindow (app_with " x  y " "newline" "none" "none" "" [])
                              (py "red") (py "old"))))))
  = [120; NEWLINE; 121]%N.
Proof.
  destruct (copy_after_separator_style
              (mkWindow (app_with " x  y " "newline" "none" "none" "" [])
                        (py "red") (py "old")) eq_refl) as (_ & _ & H);
    [discriminate|].
  rewrite (H eq_refl). reflexivity.
Defined.

(** X15.  When the output is the header alone, as automatic detection
    with no format writes it, copying reports success and leaves the
    empty text on the clipboard. *)
Theorem copy_of_header_alone (w : Window) (n : nat) :
  output_text (app w) = item_count_header n ->
  copy_to_clipboard w
  = (set_clipboard w [], [ShowInfo (py "Success") (py "Output copied to clipboard!")]).
Proof.
  intros H.
  rewrite (copy_of_header_and_body w n []) by (now rewrite app_nil_r).
  reflexivity.
Qed.

Lemma copy_of_header_alone_witness :
  copy_to_clipboard
    (fst (press_format
            (mkWindow (app_with "a,b,c" "auto" "none" "none" "" [])
                      (py "red") (py "old"))))
  = (mkWindow (app_with "a,b,c" "auto" "none" "none" "" (item_count_header 3))
              (py "red") [],
     [ShowInfo (py "Success") (py "Output copied to clipboard!")]).
Proof.
  rewrite (copy_of_header_alone
             (fst (press_format
                     (mkWindow (app_with "a,b,c" "auto" "none" "none" "" [])
                               (py "red") (py "old")))) 3 eq_refl).
  reflexivity.
Defined.

(** X16.  With an output area that is empty or blank, and so after
    [clear_output], [copy_to_clipboard] warns that there is nothing to
    copy and changes nothing: the clipboard keeps what it held. *)
Theorem copy_of_blank_output (w : Window) :
  (forallb isspace (output_text (app w)) = true ->
     copy_to_clipboard w
     = (w, [Shown (ShowWarning (py "Warning") (py "No output to copy"))]))
  /\ copy_to_clipboard (clear_output w)
     = (clear_output w, [Shown (ShowWarning (py "Warning") (py "No output to copy"))])
  /\ clipboard (clear_output w) = clipboard w.
Proof.
  split; [|split; reflexivity].
  intros H. unfold copy_to_clipboard, get_output_text.
  rewrite strip_all_space; [reflexivity|].
  rewrite forallb_app, H. reflexivity.
Qed.

Lemma copy_of_blank_output_witness :
  copy_to_clipboard
    (mkWindow (app_with "x" "auto" "none" "none" "" [SPACE; NEWLINE]) (py "red") (py "old"))
  = (mkWindow (app_with "x" "auto" "none" "none" "" [SPACE; NEWLINE]) (py "red") (py "old"),
     [Shown (ShowWarning (py "Warning") (py "No output to copy"))]).
Proof.
  apply (copy_of_blank_output
           (mkWindow (app_with "x" "auto" "none" "none" "" [SPACE; NEWLINE])
                     (py "red") (py "old"))).
  reflexivity.
Defined.

(* ================================================================== *)
(** * Further facts: analysis and the example file *)
(* ================================================================== *)

Section AnalysisFacts.

Lemma existsb_lstrip (c : char) (s : pystr) :
  isspace c = false -> existsb (N.eqb c) (lstrip s) = existsb (N.eqb c) s.
Proof.
  intros Hc. induction s as [|d r IH]; [reflexivity|]. simpl.
  destruct (isspace d) eqn:Hd; [|reflexivity].
  rewrite IH. destruct (N.eqb_spec c d) as [E | E]; [|reflexivity].
  subst d. congruence.
Qed.

Lemma existsb_rstrip (c : char) (s : pystr) :
  isspace c = false -> existsb (N.eqb c) (rstrip s) = existsb (N.eqb c) s.
Proof.
  intros Hc. induction s as [|d r IH]; [reflexivity|]. cbn [rstrip].
  destruct (isspace d && py_not (rstrip r))%bool eqn:B.
  - apply andb_true_iff in B as [Hd Hr]. apply py_not_true in Hr.
    rewrite Hr in IH. simpl in *. rewrite <- IH.
    destruct (N.eqb_spec c d) as [E | E]; [|reflexivity]. subst d. congruence.
  - simpl. now rewrite IH.
Qed.

Lemma found_chars_strip (s : pystr) : found_chars (strip s) = found_chars s.
Proof.
  unfold found_chars. apply filter_ext_in. intros c Hc.
  assert (Hsp : isspace c = false).
  { unfold problematic_chars in Hc. simpl in Hc.
    repeat (destruct Hc as [<- | Hc]; [reflexivity|]). contradiction. }
  unfold strip. now rewrite existsb_rstrip, existsb_lstrip.
Qed.

Lemma problematic_chars_NoDup : NoDup problematic_chars.
Proof.
  unfold problematic_chars.
  repeat (constructor; [simpl; intuition discriminate|]). constructor.
Qed.

(** *** Finding a piece of text *)

Lemma startswith_app (s sub : pystr) :
  startswith s sub = true <-> exists post, s = sub ++ post.
Proof.
  revert s; induction sub as [|p sub IH]; intros s.
  - split; [intros _; now exists s | reflexivity].
  - destruct s as [|c s]; cbn [startswith];
      [split; [discriminate | intros [post E]; discriminate]|].
    rewrite andb_true_iff, N.eqb_eq, IH. split.
    + intros [-> [post ->]]. now exists post.
    + intros [post E]. injection E as -> ->. split; [reflexivity | now exists post].
Qed.

Lemma find_in_sound (sub s : pystr) (i : nat) :
  find_in sub s = Some i ->
  exists pre post, s = pre ++ sub ++ post /\ List.length pre = i.
Proof.
  revert i; induction s as [|c r IH]; intros i; cbn [find_in].
  - destruct (startswith [] sub) eqn:E; [|discriminate].
    intros H. injection H as <-. apply startswith_app in E as [post E].
    exists [], post. now split.
  - destruct (startswith (c :: r) sub) eqn:E.
    + intros H. injection H as <-. apply startswith_app in E as [post E].
      exists [], post. now split.
    + destruct (find_in sub r) as [j|]; [|discriminate].
      intros H. injection H as <-.
      destruct (IH j eq_refl) as (pre & post & -> & Hlen).
      exists (c :: pre), post. split; [reflexivity | simpl; now rewrite Hlen].
Qed.


Lemma find_in_triple_quote (pre r : pystr) :
  Forall (fun c => c <> DQUOTE) pre ->
  find_in TRIPLE_QUOTE (pre ++ TRIPLE_QUOTE ++ r) = Some (List.length pre).
Proof.
  induction 1 as [|c pre Hc Hpre IH]; [reflexivity|].
  change ((c :: pre) ++ TRIPLE_QUOTE ++ r) with (c :: (pre ++ TRIPLE_QUOTE ++ r)).
  cbn [find_in]. rewrite IH.
  apply N.eqb_neq in Hc.
  change (startswith (c :: pre ++ TRIPLE_QUOTE ++ r) TRIPLE_QUOTE)
    with (N.eqb c DQUOTE
          && startswith (pre ++ TRIPLE_QUOTE ++ r) [DQUOTE; DQUOTE])%bool.
  rewrite Hc. reflexivity.
Qed.

Lemma find_from_start (s sub : pystr) :
  find s sub 0 = match find_in sub s with
                 | Some i => Z.of_nat i
                 | None => (-1)%Z
                 end.
Proof.
  unfold find. destruct (Z.ltb_spec (Z.of_nat (List.length s)) 0); [lia|].
  reflexivity.
Qed.

Lemma find_after (pre rest sub : pystr) :
  find (pre ++ rest) sub (Z.of_nat (List.length pre))
  = match find_in sub rest with
    | Some i => (Z.of_nat (List.length pre) + Z.of_nat i)%Z
    | None => (-1)%Z
    end.
Proof.
  unfold find. rewrite length_app.
  destruct (Z.ltb_spec (Z.of_nat (List.length pre + List.length rest))
                       (Z.of_nat (List.length pre))); [lia|].
  rewrite Nat2Z.id, skipn_app, skipn_all, Nat.sub_diag. reflexivity.
Qed.

Lemma slice_after (pre e post : pystr) :
  slice (pre ++ e ++ post) (Z.of_nat (List.length pre))
        (Z.of_nat (List.length pre) + Z.of_nat (List.length e)) = e.
Proof.
  unfold slice. rewrite Nat2Z.id, skipn_app, skipn_all, Nat.sub_diag.
  replace (Z.of_nat (List.length pre) + Z.of_nat (List.length e)
           - Z.of_nat (List.length pre))%Z with (Z.of_nat (List.length e)) by lia.
  rewrite Nat2Z.id. simpl. rewrite firstn_app, firstn_all, Nat.sub_diag.
  simpl. now rewrite app_nil_r.
Qed.

End AnalysisFacts.

(** ** Analysis *)

(** X17.  [analyze_string] refuses a blank input with a warning and
    leaves the indicator; otherwise it opens one box and turns the
    indicator green.  The box is the information that nothing was found
    when the input holds none of the twelve characters, and else the
    warning that lists the characters found: those of the twelve that the
    input holds, each once. *)
Theorem analyze_string_reports (w : Window) :
  let input := input_text (app w) in
  let found := found_chars input in
  (forallb isspace input = true ->
     analyze_string w
     = (w, [Shown (ShowWarning (py "Warning") (py "Please enter a string to analyze"))]))
  /\ (forallb isspace input = false ->
      (found = [] ->
         analyze_string w
         = (set_status_indicator w "green",
            [ShowInfo (py "String Analysis")
               (py "No problematic characters found. Your string should work well with all formatting options!")]))
      /\ (found <> [] ->
          analyze_string w
          = (set_status_indicator w "green",
             [Shown (ShowWarning (py "String Analysis") (analysis_message found))])))
  /\ (forall c, In c found <-> In c problematic_chars /\ In c input)
  /\ NoDup found.
Proof.
  intros input found. split; [|split; [|split]].
  - intros H. unfold analyze_string. fold input.
    now rewrite (strip_all_space input H).
  - intros H. apply strip_not_all_space, py_not_false in H.
    unfold analyze_string. fold input. rewrite H, found_chars_strip. fold found.
    split; intros Hf.
    + now rewrite Hf.
    + destruct found; [contradiction | reflexivity].
  - intros c. subst found. unfold found_chars. rewrite filter_In, existsb_exists.
    split.
    + intros [Hp (d & Hd & E)]. apply N.eqb_eq in E. subst d. now split.
    + intros [Hp Hc]. split; [exact Hp|]. exists c. split; [exact Hc | apply N.eqb_refl].
  - apply NoDup_filter, problematic_chars_NoDup.
Qed.

Lemma analyze_string_reports_witness :
  analyze_string (mkWindow (app_with " a,(b) " "auto" "none" "none" "" []) (py "red") [])
  = (mkWindow (app_with " a,(b) " "auto" "none" "none" "" []) (py "green") [],
     [Shown (ShowWarning (py "String Analysis") (analysis_message [44; 40; 41]%N))]).
Proof.
  apply (analyze_string_reports
           (mkWindow (app_with " a,(b) " "auto" "none" "none" "" []) (py "red") []));
    [reflexivity | discriminate].
Defined.

(** ** The example file *)

(** X18.  Whatever [example.py] holds, [load_example] either replaces the
    input by a text that is not empty and stands in the file between two
    triple quotes, turning the indicator red and opening no box, or
    reports that no example was found and changes nothing. *)
Theorem load_example_sound (content : pystr) (w : Window) :
  (exists pre example post,
     content = pre ++ TRIPLE_QUOTE ++ example ++ TRIPLE_QUOTE ++ post
     /\ example <> []
     /\ load_example (FileContent content) w
        = (set_status_indicator (with_app w (set_input_text (app w) example)) "red", []))
  \/ load_example (FileContent content) w
     = (w, [Shown (ShowError (py "Error")
                     (py "Could not find example string in example.py"))]).
Proof.
  unfold load_example. rewrite find_from_start.
  destruct (find_in TRIPLE_QUOTE content) as [i|] eqn:Hi; [|now right].
  destruct (find_in_sound _ _ _ Hi) as (pre & rest & -> & Hlen).
  replace (pre ++ TRIPLE_QUOTE ++ rest) with ((pre ++ TRIPLE_QUOTE) ++ rest)
    by now rewrite <- app_assoc.
  replace (Z.of_nat i + 3)%Z with (Z.of_nat (List.length (pre ++ TRIPLE_QUOTE)))
    by (rewrite length_app; simpl; lia).
  rewrite find_after.
  destruct (find_in TRIPLE_QUOTE rest) as [j|] eqn:Hj.
  - destruct (find_in_sound _ _ _ Hj) as (example & post & -> & Hlenj).
    destruct j as [|j].
    + right. rewrite Z.add_0_r, Z.ltb_irrefl, andb_false_r. reflexivity.
    + left. exists pre, example, post. split; [now rewrite <- !app_assoc|].
      split; [destruct example; [discriminate | discriminate]|].
      assert (B : ((2 <? Z.of_nat (List.length (pre ++ TRIPLE_QUOTE)))%Z
                   && (Z.of_nat (List.length (pre ++ TRIPLE_QUOTE))
                       <? Z.of_nat (List.length (pre ++ TRIPLE_QUOTE)) + Z.of_nat (S j))%Z)%bool
                  = true).
      { apply andb_true_iff. split; apply Z.ltb_lt; [|lia].
        rewrite length_app. simpl. lia. }
      rewrite B. rewrite <- Hlenj, slice_after. reflexivity.
  - right.
    destruct (Z.ltb_spec (Z.of_nat (List.length (pre ++ TRIPLE_QUOTE))) (-1)); [lia|].
    rewrite andb_false_r. reflexivity.
Qed.

(** X19.  A file that holds, after a text without double quotes, an
    example without double quotes that is not empty between two triple
    quotes loads that example: the input becomes the example, the
    indicator turns red and no box is opened. *)
Theorem load_example_round_trip (pre example post : pystr) (w : Window) :
  Forall (fun c => c <> DQUOTE) pre ->
  Forall (fun c => c <> DQUOTE) example ->
  example <> [] ->
  load_example
    (FileContent (pre ++ TRIPLE_QUOTE ++ example ++ TRIPLE_QUOTE ++ post)) w
  = (set_status_indicator (with_app w (set_input_text (app w) example)) "red", []).
Proof.
  intros Hpre Hexample Hne. unfold load_example.
  rewrite find_from_start, find_in_triple_quote by exact Hpre.
  replace (pre ++ TRIPLE_QUOTE ++ example ++ TRIPLE_QUOTE ++ post)
    with ((pre ++ TRIPLE_QUOTE) ++ example ++ TRIPLE_QUOTE ++ post)
    by now rewrite <- app_assoc.
  replace (Z.of_nat (List.length pre) + 3)%Z
    with (Z.of_nat (List.length (pre ++ TRIPLE_QUOTE)))
    by (rewrite length_app; simpl; lia).
  rewrite find_after, find_in_triple_quote by exact Hexample.
  assert (B : ((2 <? Z.of_nat (List.length (pre ++ TRIPLE_QUOTE)))%Z
               && (Z.of_nat (List.length (pre ++ TRIPLE_QUOTE))
                   <? Z.of_nat (List.length (pre ++ TRIPLE_QUOTE))
                      + Z.of_nat (List.length example))%Z)%bool = true).
  { apply andb_true_iff. split; apply Z.ltb_lt.
    - rewrite length_app. simpl. lia.
    - destruct example; [contradiction | simpl; lia]. }
  rewrite B, slice_after. reflexivity.
Qed.

Lemma load_example_round_trip_witness :
  load_example
    (FileContent (py "example = " ++ TRIPLE_QUOTE ++ py "a b" ++ TRIPLE_QUOTE ++ [NEWLINE]))
    (mkWindow (app_with "old" "auto" "none" "none" "" []) (py "green") [])
  = (mkWindow (mkApp (py "a b" ++ [NEWLINE]) (py "auto") (py "none") (py "none") [] [])
              (py "red") [], []).
Proof.
  apply (load_example_round_trip (py "example = ") (py "a b") [NEWLINE]
           (mkWindow (app_with "old" "auto" "none" "none" "" []) (py "green") []));
    [repeat constructor; discriminate | repeat constructor; discriminate | discriminate].
Defined.



(** ** Clearing, and the separator *)

(** After [clear_input] the indicator is red, the options and the
    output are as before, and both the format and the analysis refuse the
    now empty input with their warning. *)
Lemma clear_input_then_refused (w : Window) :
  status_indicator (clear_input w) = py "red"
  /\ output_text (app (clear_input w)) = output_text (app w)
  /\ press_format (clear_input w) = (clear_input w, [Shown EmptyInput])
  /\ analyze_string (clear_input w)
     = (clear_input w,
        [Shown (ShowWarning (py "Warning") (py "Please enter a string to analyze"))]).
Proof.
  split; [reflexivity | split; [reflexivity | split; reflexivity]].
Qed.

(** X21.  [get_separator] answers one of the three separator characters
    for every value of the separator variable: the space, the comma or
    the newline for the manual choice of that name, what detection
    answers under automatic detection, and the space for any other
    value and for automatic detection without a text. *)
Theorem get_separator_answers (self : App) (input_string : option pystr) :
  (get_separator self input_string = SPACE
   \/ get_separator self input_string = COMMA
   \/ get_separator self input_string = NEWLINE)
  /\ (separator_var self = py "space" -> get_separator self input_string = SPACE)
  /\ (separator_var self = py "comma" -> get_separator self input_string = COMMA)
  /\ (separator_var self = py "newline" -> get_separator self input_string = NEWLINE)
  /\ (separator_var self = py "auto" ->
      get_separator self None = SPACE
      /\ forall text, get_separator self (Some text) = auto_detect_separator text)
  /\ (separator_var self <> py "auto" -> ~ manual_separator (separator_var self) ->
      get_separator self input_string = SPACE).
Proof.
  assert (Hauto : forall text,
             auto_detect_separator text = SPACE \/ auto_detect_separator text = COMMA
             \/ auto_detect_separator text = NEWLINE).
  { intros text. unfold auto_detect_separator.
    repeat match goal with
    | |- context [if ?b then _ else _] => destruct b
    end; auto. }
  split; [|repeat split].
  - unfold get_separator.
    repeat match goal with
    | |- context [if ?b then _ else _] => destruct b
    end; auto. destruct input_string; auto.
  - intros E. unfold get_separator. option_is E. reflexivity.
  - intros E. unfold get_separator. option_is E. reflexivity.
  - intros E. unfold get_separator. option_is E. reflexivity.
  - unfold get_separator. option_is H. reflexivity.
  - intros text. unfold get_separator. option_is H. reflexivity.
  - intros Hna Hnm. unfold get_separator, is_lit.
    destruct (pystr_eqb (separator_var self) (py "auto")) eqn:E1;
      [apply pystr_eqb_eq in E1; contradiction|].
    destruct (pystr_eqb (separator_var self) (py "space")) eqn:E2; [reflexivity|].
    destruct (pystr_eqb (separator_var self) (py "comma")) eqn:E3;
      [apply pystr_eqb_eq in E3; exfalso; apply Hnm; right; now left|].
    destruct (pystr_eqb (separator_var self) (py "newline")) eqn:E4;
      [apply pystr_eqb_eq in E4; exfalso; apply Hnm; right; now right|].
    reflexivity.
Qed.

(* ================================================================== *)
(** * Further facts: words of letters and digits *)
(* ================================================================== *)

Section AlnumWords.

Lemma alnum_word_chars (w : pystr) :
  alnum_word w ->
  is_word w /\ Forall (fun c => c <> SLASH) w /\ Forall (fun c => c <> COMMA) w
  /\ Forall (fun c => c <> SPACE) w /\ Forall (fun c => c <> NEWLINE) w
  /\ existsb is_ascii_alnum w = true.
Proof.
  intros [Hne Hall]. rewrite forallb_forall in Hall.
  repeat split; try exact Hne;
    try (apply Forall_forall; intros c Hc E; subst c;
         specialize (Hall _ Hc); discriminate).
  - unfold no_whitespace. apply forallb_forall. intros c Hc.
    now rewrite (alnum_not_space c (Hall c Hc)).
  - destruct w as [|c w]; [contradiction|]. simpl.
    now rewrite (Hall c (or_introl eq_refl)).
Qed.

Lemma no_slash_no_marker (w : pystr) :
  Forall (fun c => c <> SLASH) w -> has_marker w = false.
Proof.
  induction 1 as [|c w Hc Hw IH]; [reflexivity|].
  now rewrite has_marker_cons_other.
Qed.

Lemma well_spaced_word_app (w r : pystr) (b : bool) :
  w <> [] -> no_whitespace w -> well_spaced b (w ++ r) = well_spaced false r.
Proof.
  revert b; induction w as [|c w IH]; intros b Hne Hw; [contradiction|].
  apply no_whitespace_cons in Hw as [Hc Hw].
  change ((c :: w) ++ r) with (c :: (w ++ r)). cbn [well_spaced]. rewrite Hc.
  destruct w as [|d w]; [reflexivity|]. apply IH; [discriminate | exact Hw].
Qed.

Lemma well_spaced_join (items : list pystr) :
  Forall is_word items -> well_spaced false (join [SPACE] items) = true.
Proof.
  induction 1 as [|w l [Hne Hw] Hl IH]; [reflexivity|].
  destruct l as [|y l].
  - simpl. rewrite <- (app_nil_r w). now rewrite well_spaced_word_app.
  - rewrite join_cons2. rewrite well_spaced_word_app by assumption.
    change ([SPACE] ++ join [SPACE] (y :: l)) with (SPACE :: join [SPACE] (y :: l)).
    cbn [well_spaced]. change (isspace SPACE) with true. cbn.
    inversion Hl as [|? ? [Hyne Hy] _]; subst.
    destruct l as [|z l].
    + simpl. rewrite <- (app_nil_r y). now rewrite well_spaced_word_app.
    + rewrite join_cons2 in *. rewrite well_spaced_word_app in * by assumption.
      exact IH.
Qed.

Lemma words_have_ends (items : list pystr) :
  Forall is_word items ->
  Forall (fun item => item <> [] /\ lstrip item = item /\ rstrip item = item) items.
Proof.
  intros H. eapply Forall_impl; [|exact H]. intros w [Hne Hw].
  repeat split; [exact Hne | now apply lstrip_no_whitespace
                 | now apply rstrip_no_whitespace].
Qed.

(** Words of letters and digits typed with single spaces between them
    are the items, whatever the separator choice. *)
Lemma items_of_alnum_words (self : App) (words : list pystr) :
  words <> [] -> Forall alnum_word words ->
  separator_var self = py "auto" \/ manual_separator (separator_var self) ->
  clean_and_split_string self (join (py " ") words ++ [NEWLINE]) = words.
Proof.
  intros Hne Hwords Hsep. change (py " ") with [SPACE].
  assert (Hw : Forall is_word words).
  { eapply Forall_impl; [|exact Hwords]. intros w Hw. now apply alnum_word_chars. }
  assert (Hm : has_marker (join [SPACE] words) = false).
  { apply has_marker_join_space; [reflexivity|].
    eapply Forall_impl; [|exact Hwords]. intros w Ha.
    apply no_slash_no_marker. now apply alnum_word_chars. }
  assert (Hclean : cleaned (join [SPACE] words ++ [NEWLINE]) = join [SPACE] words).
  { rewrite cleaned_app_spaces by reflexivity. apply cleaned_fixed.
    - exact Hm.
    - now apply well_spaced_join.
    - unfold strip. rewrite (lstrip_join _ _ (words_have_ends words Hw)).
      apply (rstrip_join _ _ (words_have_ends words Hw)). }
  destruct Hsep as [Hauto | Hmanual].
  - unfold clean_and_split_string. option_is Hauto. rewrite Hclean.
    assert (Hdetect : auto_detect_separator (join [SPACE] words) = SPACE).
    { unfold auto_detect_separator.
      rewrite (count_absent COMMA), (count_absent NEWLINE).
      - now destruct (py_not (join [SPACE] words)).
      - apply join_Forall; [repeat constructor; discriminate|].
        eapply Forall_impl; [|exact Hwords]. intros w Ha. now apply alnum_word_chars.
      - apply join_Forall; [repeat constructor; discriminate|].
        eapply Forall_impl; [|exact Hwords]. intros w Ha. now apply alnum_word_chars. }
    rewrite Hdetect, split_on_join.
    + now apply stripped_items_words.
    + exact Hne.
    + eapply Forall_impl; [|exact Hwords]. intros w Ha. now apply alnum_word_chars.
  - rewrite clean_and_split_manual by exact Hmanual. rewrite Hclean.
    now apply split_join_space.
Qed.

Lemma count_of_alnum_words (words : list pystr) :
  Forall alnum_word words -> count_actual_content words = List.length words.
Proof.
  intros H. rewrite count_actual_content_sum.
  induction H as [|w l Hw Hl IH]; [reflexivity|].
  destruct (alnum_word_chars w Hw) as ([_ Hns] & _ & _ & _ & _ & Hex).
  simpl. rewrite IH, words_of_item_without_space by exact Hns.
  now rewrite Hex.
Qed.

End AlnumWords.

(** ** From the typed words to the written literal *)

(** X22.  For an input made of words of ASCII letters and digits typed
    with single spaces between them, and for each of the four separator
    choices, the items are the words and the content count is their
    number; the list format then writes the header with that number and
    the list of the quoted words, and the tuple format the tuple. *)
Theorem words_to_literal (self : App) (words : list pystr) :
  words <> [] -> Forall alnum_word words ->
  input_text self = join (py " ") words ++ [NEWLINE] ->
  separator_var self = py "auto" \/ manual_separator (separator_var self) ->
  clean_and_split_string self (input_text self) = words
  /\ count_actual_content words = List.length words
  /\ (format_type self = py "list" ->
      process_string self
      = (set_output_text self
           (item_count_header (List.length words) ++ format_as_list words), []))
  /\ (format_type self = py "tuple" ->
      process_string self
      = (set_output_text self
           (item_count_header (List.length words) ++ format_as_tuple words), [])).
Proof.
  intros Hne Hwords Hinput Hsep.
  assert (Hitems : clean_and_split_string self (input_text self) = words).
  { rewrite Hinput. now apply items_of_alnum_words. }
  pose proof (count_of_alnum_words words Hwords) as Hcount.
  assert (Hsome : clean_and_split_string self (input_text self) <> [])
    by now rewrite Hitems.
  destruct (bracket_facts_past_guards self Hsome) as [Hlist Htuple].
  rewrite Hitems, Hcount in Hlist, Htuple.
  repeat split; assumption.
Qed.

Lemma words_to_literal_witness :
  process_string
    (mkApp (py "hello world test" ++ [NEWLINE]) (py "auto") (py "list") (py "none") [] [])
  = (mkApp (py "hello world test" ++ [NEWLINE]) (py "auto") (py "list") (py "none") []
       (item_count_header 3 ++ format_as_list [py "hello"; py "world"; py "test"]), []).
Proof.
  apply (words_to_literal
           (mkApp (py "hello world test" ++ [NEWLINE]) (py "auto") (py "list")
                  (py "none") [] [])
           [py "hello"; py "world"; py "test"]);
    [discriminate | repeat constructor; discriminate | reflexivity
     | left; reflexivity | reflexivity].
Defined.

(* ================================================================== *)
(** * Further facts: comma-separated values, first words and keys *)
(* ================================================================== *)

Section CommaValues.

Lemma well_spaced_no_whitespace (b : bool) (s : pystr) :
  no_whitespace s -> well_spaced b s = true.
Proof.
  revert b; induction s as [|c r IH]; intros b H; [reflexivity|].
  apply no_whitespace_cons in H as [Hc Hr]. cbn [well_spaced]. rewrite Hc.
  now apply IH.
Qed.

Lemma has_marker_join_char (x : char) (items : list pystr) :
  x <> SLASH -> x <> LOWER_N ->
  Forall (fun item => has_marker item = false) items ->
  has_marker (join [x] items) = false.
Proof.
  intros Hs Hn. induction 1 as [|w l Hw Hl IH]; [reflexivity|].
  destruct l as [|y l]; [exact Hw|].
  rewrite join_cons2.
  change (w ++ [x] ++ join [x] (y :: l)) with (w ++ x :: join [x] (y :: l)).
  apply has_marker_app_cons; try assumption.
  now rewrite has_marker_cons_other.
Qed.

Lemma join_no_whitespace (x : char) (items : list pystr) :
  isspace x = false -> Forall no_whitespace items -> no_whitespace (join [x] items).
Proof.
  intros Hx. induction 1 as [|w l Hw Hl IH]; [reflexivity|].
  destruct l as [|y l]; [exact Hw|].
  rewrite join_cons2. apply no_whitespace_app. split; [exact Hw|].
  apply no_whitespace_app. split; [|exact IH].
  unfold no_whitespace. simpl. now rewrite Hx.
Qed.

Lemma no_whitespace_without (c : char) (s : pystr) :
  isspace c = true -> no_whitespace s -> Forall (fun d => d <> c) s.
Proof.
  intros Hc H. unfold no_whitespace in H. rewrite forallb_forall in H.
  apply Forall_forall. intros d Hd ->. specialize (H _ Hd).
  rewrite Hc in H. discriminate.
Qed.

End CommaValues.

(** ** Round trips through automatic detection *)

(** X23.  With automatic detection a line of values separated by commas
    tokenises to the values: for values that are not empty and hold no
    whitespace, no comma and no marker, the items of their join by commas
    are the values themselves. *)
Theorem comma_separated_round_trip (self : App) (values : list pystr) :
  separator_var self = py "auto" -> values <> [] -> Forall csv_value values ->
  clean_and_split_string self (join [COMMA] values) = values.
Proof.
  intros Hauto Hne Hvalues.
  assert (Hws : Forall no_whitespace values).
  { eapply Forall_impl; [|exact Hvalues]. now intros v [(_ & Hv & _) _]. }
  assert (Hw : Forall is_word values).
  { eapply Forall_impl; [|exact Hvalues]. intros v [(Hn & Hv & _) _]. now split. }
  assert (Hnc : Forall (Forall (fun c => c <> COMMA)) values).
  { eapply Forall_impl; [|exact Hvalues]. now intros v [_ Hv]. }
  assert (Hj : no_whitespace (join [COMMA] values))
    by (apply join_no_whitespace; [reflexivity | exact Hws]).
  assert (Hclean : cleaned (join [COMMA] values) = join [COMMA] values).
  { apply cleaned_fixed.
    - apply has_marker_join_char; try discriminate.
      eapply Forall_impl; [|exact Hvalues]. now intros v [(_ & _ & Hv) _].
    - now apply well_spaced_no_whitespace.
    - now apply strip_no_whitespace. }
  unfold clean_and_split_string. option_is Hauto. rewrite Hclean.
  assert (Hnl : count NEWLINE (join [COMMA] values) = 0)
    by (apply count_absent; now apply no_whitespace_without).
  destruct values as [|x [|y l]]; [contradiction | |].
  - simpl join in *. inversion Hnc as [|? ? Hx _]; subst.
    unfold auto_detect_separator.
    rewrite (count_absent COMMA x Hx), Hnl. simpl.
    assert (Hd : (if py_not x then SPACE else SPACE) = SPACE) by now destruct (py_not x).
    rewrite Hd, split_on_one_piece by (now apply no_whitespace_without).
    now apply stripped_items_words.
  - assert (Hdetect : auto_detect_separator (join [COMMA] (x :: y :: l)) = COMMA).
    { unfold auto_detect_separator. rewrite Hnl.
      assert (Hpos : 0 < count COMMA (join [COMMA] (x :: y :: l))).
      { rewrite join_cons2, !count_app. change (count COMMA [COMMA]) with 1. lia. }
      assert (Hnn : py_not (join [COMMA] (x :: y :: l)) = false).
      { rewrite join_cons2. inversion Hw as [|? ? [Hx _] _]; subst.
        destruct x; [contradiction | reflexivity]. }
      apply Nat.ltb_lt in Hpos. rewrite Hnn, Hpos. reflexivity. }
    rewrite Hdetect, split_on_join by (exact Hnc || discriminate).
    now apply stripped_items_words.
Qed.

Lemma comma_separated_round_trip_witness :
  clean_and_split_string (app_with "" "auto" "none" "none" "" []) (py "a,b2,c")
  = [py "a"; py "b2"; py "c"].
Proof.
  apply (comma_separated_round_trip (app_with "" "auto" "none" "none" "" [])
           [py "a"; py "b2"; py "c"]);
    [reflexivity | discriminate | repeat constructor; discriminate].
Defined.

(** ** First words *)

(** X24.  Every item that the tokeniser produces has a first word: the
    [first_word] strategy gives it a key that is a word, without
    whitespace and not empty, and a value that is not empty; the branch
    for an item without words is never taken for such an item. *)
Theorem first_word_of_an_item (self : App) (raw item : pystr) :
  In item (clean_and_split_string self raw) ->
  exists key others,
    split item = key :: others
    /\ is_word key
    /\ fst (first_word_pair item) = key
    /\ snd (first_word_pair item) <> [].
Proof.
  intros Hin.
  pose proof (clean_and_split_trimmed self raw) as Ht.
  rewrite Forall_forall in Ht. destruct (Ht item Hin) as [Hne Htrim].
  destruct (split item) as [|key others] eqn:Hsplit.
  { apply strip_split_nil in Hsplit. congruence. }
  pose proof (split_words item) as Hwords. rewrite Hsplit in Hwords.
  inversion Hwords as [|? ? Hkey Hothers]; subst.
  exists key, others. unfold first_word_pair. rewrite Hsplit.
  repeat split; try apply Hkey.
  cbn [snd]. destruct others as [|w others]; [exact Hne|].
  cbn. inversion Hothers as [|? ? [Hw _] _]; subst.
  destruct others as [|w2 others]; [exact Hw|].
  intros E. apply app_eq_nil in E as [E _]. contradiction.
Qed.

Lemma first_word_of_an_item_witness :
  exists key others,
    split (py "a b") = key :: others
    /\ is_word key
    /\ fst (first_word_pair (py "a b")) = key
    /\ snd (first_word_pair (py "a b")) <> [].
Proof.
  apply (first_word_of_an_item (app_with "" "auto" "none" "none" "" [])
           (py "a b, c") (py "a b")).
  left. reflexivity.
Defined.

(* ================================================================== *)
(** * Further facts: numbered keys *)
(* ================================================================== *)

Section NumberedKeys.

Lemma py_injective (a b : string) : py a = py b -> a = b.
Proof.
  unfold py. intros H.
  assert (E : list_ascii_of_string a = list_ascii_of_string b).
  { revert H. generalize (list_ascii_of_string a) (list_ascii_of_string b).
    induction l as [|x l IH]; intros [|y l'] H; try discriminate; [reflexivity|].
    simpl in H. injection H as Hx Hl. f_equal; [|now apply IH].
    rewrite <- (ascii_N_embedding x), <- (ascii_N_embedding y). now rewrite Hx. }
  rewrite <- (string_of_list_ascii_of_string a),
          <- (string_of_list_ascii_of_string b).
  now rewrite E.
Qed.

Lemma to_uint_not_nil (n : nat) : Nat.to_uint n <> Decimal.Nil.
Proof.
  intros H. pose proof (Unsigned.of_to n) as E. rewrite H in E.
  simpl in E. subst n. discriminate H.
Qed.

Lemma str_of_nat_injective (n m : nat) : str_of_nat n = str_of_nat m -> n = m.
Proof.
  unfold str_of_nat. intros H. apply py_injective in H.
  apply Unsigned.to_uint_inj.
  pose proof (NilZero.usu (Nat.to_uint n) (to_uint_not_nil n)) as En.
  pose proof (NilZero.usu (Nat.to_uint m) (to_uint_not_nil m)) as Em.
  rewrite H in En. rewrite En in Em. now injection Em.
Qed.

Lemma numbered_keys_NoDup (prefix : pystr) (offset count : nat) :
  NoDup (map (fun i => prefix ++ str_of_nat (i + offset)) (seq 0 count)).
Proof.
  apply Injective_map_NoDup; [|apply seq_NoDup].
  intros i j H. apply app_inv_head in H. apply str_of_nat_injective in H. lia.
Qed.

End NumberedKeys.

(** ** Keys *)

(** X25.  The [index] and [auto] strategies, and [user_defined] with a
    prefix, never give two items the same key: the keys are numbered by
    position and the decimal writing of a number determines it. *)
Theorem numbered_keys_are_distinct (self : App) (items : list pystr) :
  dict_key_type self = py "index" \/ dict_key_type self = py "auto"
  \/ (dict_key_type self = py "user_defined" /\ strip (user_prefix self) <> []) ->
  exists pairs,
    dict_pairs self items = (Some pairs, [])
    /\ NoDup (map fst pairs).
Proof.
  intros [E | [E | [E Hprefix]]]; unfold dict_pairs; option_is E.
  - eexists. split; [reflexivity|]. unfold enumerate.
    rewrite (enumerate_from_keys str_of_nat).
    pose proof (numbered_keys_NoDup [] 0 (List.length items)) as H.
    erewrite map_ext; [exact H|]. intros i. simpl. now rewrite Nat.add_0_r.
  - eexists. split; [reflexivity|]. unfold enumerate.
    rewrite (enumerate_from_keys (fun i => py "item_" ++ str_of_nat (i + 1))).
    apply numbered_keys_NoDup.
  - apply py_not_false in Hprefix. rewrite Hprefix.
    eexists. split; [reflexivity|]. unfold enumerate.
    rewrite (enumerate_from_keys
               (fun i => strip (user_prefix self) ++ py "_" ++ str_of_nat (i + 1))).
    pose proof (numbered_keys_NoDup (strip (user_prefix self) ++ py "_") 1
                  (List.length items)) as H.
    erewrite map_ext; [exact H|]. intros i. simpl. now rewrite <- app_assoc.
Qed.

Lemma numbered_keys_are_distinct_witness :
  exists pairs,
    dict_pairs (app_with "" "auto" "dict" "auto" "" []) [py "x"; py "x"]
      = (Some pairs, [])
    /\ NoDup (map fst pairs).
Proof.
  apply (numbered_keys_are_distinct
           (app_with "" "auto" "dict" "auto" "" []) [py "x"; py "x"]).
  right; left; reflexivity.
Defined.
